(** * bao-bundler: flows, runners, the build loop and the manifest codec

    A shallow embedding of [src/index.ts].  Asynchronous methods become
    computations in a state-and-exception monad over the host (file system,
    shell, console); every call of a host primitive is also recorded in a
    trace, so that statements such as "no copy is performed" are statements
    about the trace.

    [src/index.ts] holds three revisions of the module.  The first one
    (lines 1-263) is the current one and is modelled by the top-level modules
    [FolderFlow], [FileFlow], [VoidFileFlow], [CopyRunner] and [Project].
    The registry-based manifest codec only exists in the revision of lines
    477-773 and is modelled in [ManifestCodec]; the oldest revision (lines
    264-476) is modelled in [Legacy] as far as it is referred to. *)

From stdpp Require Import base option list strings gmap.

Set Default Proof Using "Type".
Open Scope string_scope.
Open Scope list_scope.

(** ** JavaScript values that occur in the module *)

(** A thrown value.  Everything the module throws is [new Error(message)];
    the host may throw instances of subclasses ([TypeError], ...), which
    also satisfy [instanceof Error]. *)
Record error := mkError { err_class : string; message : string }.

Definition Error (msg : string) : error := mkError "Error" msg.

Inductive result (A : Type) : Type :=
| Ok (a : A)
| Err (e : error).
Arguments Ok {A} a.
Arguments Err {A} e.

(** [string[] | string | undefined], the type of both components of what
    [Flow.execute] returns and of both arguments of [Runner.run]. *)
Inductive selector : Type :=
| Undefined
| Str (p : string)
| Arr (ps : list string).

(** [dest[i]]: an element of an array, [undefined] out of range. *)
Definition elem (o : option string) : selector :=
  match o with
  | Some p => Str p
  | None => Undefined
  end.

(** JavaScript truthiness: [undefined] and the empty string are falsy, every
    array (also the empty one) is truthy. *)
Definition str_truthy (s : string) : bool :=
  match s with
  | EmptyString => false
  | String _ _ => true
  end.

Definition truthy (v : selector) : bool :=
  match v with
  | Undefined => false
  | Str s => str_truthy s
  | Arr _ => true
  end.

Definition opt_truthy (o : option string) : bool :=
  match o with
  | None => false
  | Some s => str_truthy s
  end.

(** Conversion in a template literal, [`${v}`]. *)
Definition join_comma (ps : list string) : string :=
  match ps with
  | [] => ""
  | p :: ps' => fold_left (λ acc q, acc +:+ "," +:+ q) ps' p
  end.

Definition show (v : selector) : string :=
  match v with
  | Undefined => "undefined"
  | Str s => s
  | Arr ps => join_comma ps
  end.

(** [Array.prototype.includes] on an array of strings. *)
Definition includes (l : list string) (f : string) : bool :=
  bool_decide (f ∈ l).

(** [Array.from(s)] and [[...s]] for a set (or array) [s]. *)
Definition Array_from (s : list string) : list string := s.

(** [new Set(l)] followed by iteration ([Array.from], spread): the elements
    of [l] in order of first occurrence.  A [Set<string>] is represented by
    the list of its elements in insertion order. *)
Definition Set_add (s : list string) (x : string) : list string :=
  if includes s x then s else s ++ [x].

Definition new_Set (l : list string) : list string :=
  fold_left Set_add l [].

(** ** Plain objects used as maps

    [this.flows] is a plain object ([{}], or what parsing the manifest
    gives): besides its own properties, which are the entries of the map,
    it has the properties that every plain object inherits from
    [Object.prototype]. *)

(** The property names inherited from [Object.prototype]. *)
Definition Object_prototype_keys : list string :=
  ["constructor"; "__defineGetter__"; "__defineSetter__"; "hasOwnProperty";
   "__lookupGetter__"; "__lookupSetter__"; "isPrototypeOf"; "propertyIsEnumerable";
   "toString"; "valueOf"; "__proto__"; "toLocaleString"].

Definition inherited (key : string) : bool :=
  existsb (String.eqb key) Object_prototype_keys.

(** What spreading a value that is not iterable throws (the text is the
    runtime's). *)
Definition spread_TypeError : error :=
  mkError "TypeError" "Spread syntax requires ...iterable[Symbol.iterator] to be a function".

(** [[...(flows[id] ?? [])]], for the elements that [merge] starts from:
    an own property is the tracked set (or array), which is spread; a
    property that is only inherited is a function (the prototype object
    for [__proto__]), which is not nullish and not iterable, so that the
    spread throws; any other key gives [undefined], hence [[]]. *)
Definition spread_tracked (flows : gmap string (list string)) (id : string)
  : result (option (list string)) :=
  match flows !! id with
  | Some files => Ok (Some files)
  | None => if inherited id then Err spread_TypeError else Ok None
  end.

(** ** The manifest document *)

(** A JSON value, for the [config] payload of a step. *)
#[local] Unset Elimination Schemes.
Inductive json : Type :=
| JNull
| JBool (b : bool)
| JStr (s : string)
| JArr (l : list json)
| JObj (fields : list (string * json)).
#[local] Set Elimination Schemes.

(** [{className, config}]; [JSON.stringify] leaves out a property whose
    value is [undefined], which is [None] here. *)
Record class_doc := ClassDoc { className : string; config : option json }.

Record step_doc := StepDoc { doc_runner : class_doc; doc_flow : class_doc }.

(** The document in [bao.manifest.json] (the object handed to
    [JSON.stringify], and what parsing the file gives back).  The current
    revision writes no [steps] property. *)
Record manifest := Manifest {
  doc_name : string;
  doc_dependencies : gmap string string;
  doc_flows : gmap string (list string);
  doc_steps : option (list step_doc);
  doc_tmpPath : string
}.

(** ** The host *)

(** Calls that leave the module, in the order they are made. *)
Inductive event : Type :=
| console_log (line : string)
| console_warn (line : string)
| console_log_project (name : string)
| cp (src dest : selector)
| mkdir (path : string) (recursive : bool)
| rm (path : string)
| find (dir : string) (name_pattern : option string)
| chdir (path : string)
| file_exists (path : string)
| file_json (path : string)
| file_write (path : string) (doc : manifest).

(** What the host answers.  [W] is the state of the world outside the
    module; [node:fs/promises], the Bun shell, [Bun.file] and [node:path]
    are not part of the repository and are taken as parameters. *)
Class Host (W : Type) : Type := {
  host_cp : selector → selector → W → result () * W;
  host_mkdir : string → bool → W → result () * W;
  host_rm : string → W → result () * W;
  host_find : string → option string → W → result (list string) * W;
  host_chdir : string → W → result () * W;
  host_exists : string → W → bool * W;
  host_json : string → W → result manifest * W;
  host_write : string → manifest → W → result () * W;
  path_basename : string → string;
  path_join : string → string → string
}.

Record state (W : Type) : Type := State { world : W; trace : list event }.
Arguments State {W} world trace.
Arguments world {W} s.
Arguments trace {W} s.

(** ** The monad of asynchronous methods *)

(** A computation over a state [S] that returns or throws; the state at the
    point of the throw is kept (mutations are not rolled back). *)
Definition M (S A : Type) : Type := S → result A * S.

Definition ret {S A} (a : A) : M S A := λ s, (Ok a, s).

Definition throw {S A} (e : error) : M S A := λ s, (Err e, s).

Definition bind {S A B} (m : M S A) (k : A → M S B) : M S B :=
  λ s, match m s with
       | (Ok a, s') => k a s'
       | (Err e, s') => (Err e, s')
       end.

(** [try { m } catch (err) { h err }] *)
Definition try_catch {S A} (m : M S A) (h : error → M S A) : M S A :=
  λ s, match m s with
       | (Ok a, s') => (Ok a, s')
       | (Err e, s') => h e s'
       end.

Notation "'let*' x ':=' m 'in' k" := (bind m (λ x, k))
  (at level 10, x pattern, m at level 100, k at level 200, only parsing).
Notation "m ';;' k" := (bind m (λ _, k))
  (at level 100, k at level 200, right associativity, only parsing).

(** [for (const x of l) { await f(x) }] *)
Fixpoint for_of {S A} (l : list A) (f : A → M S ()) : M S () :=
  match l with
  | [] => ret ()
  | x :: l' => f x;; for_of l' f
  end.

Section HostCalls.
Context {W : Type} `{!Host W}.

(** A host call: record the event, let the host answer. *)
Definition call {A} (ev : event) (h : W → result A * W) : M (state W) A :=
  λ s, let '(r, w) := h (world s) in (r, State w (trace s ++ [ev])).

(** The console cannot fail. *)
Definition emit (ev : event) : M (state W) () :=
  λ s, (Ok (), State (world s) (trace s ++ [ev])).

Definition do_cp (src dest : selector) : M (state W) () :=
  call (cp src dest) (host_cp src dest).
Definition do_mkdir (p : string) (recursive : bool) : M (state W) () :=
  call (mkdir p recursive) (host_mkdir p recursive).
Definition do_rm (p : string) : M (state W) () :=
  call (rm p) (host_rm p).
Definition do_find (dir : string) (pat : option string) : M (state W) (list string) :=
  call (find dir pat) (host_find dir pat).
Definition do_chdir (p : string) : M (state W) () :=
  call (chdir p) (host_chdir p).
Definition do_exists (p : string) : M (state W) bool :=
  call (file_exists p) (λ w, let '(b, w') := host_exists p w in (Ok b, w')).
Definition do_json (p : string) : M (state W) manifest :=
  call (file_json p) (host_json p).
Definition do_write (p : string) (doc : manifest) : M (state W) () :=
  call (file_write p doc) (host_write p doc).
End HostCalls.

(** ** Constants *)

Definition TMP_PATH : string := "./.bao_tmp".
Definition ASSETS_PATH : string := "assets".
Definition BUILD_PATH : string := "build".
Definition MANIFEST_FILE : string := "./bao.manifest.json".

(** ** Flows and runners *)

(** [interface Flow] *)
Record Flow (W : Type) : Type := mkFlow {
  id : string;
  execute : M (state W) (selector * selector)
}.
Arguments mkFlow {W} id execute.
Arguments id {W} f.
Arguments execute {W} f.

(** [interface Runner]; [constructor_name] is
    [Object.getPrototypeOf(runner).constructor.name]. *)
Record Runner (W : Type) : Type := mkRunner {
  constructor_name : string;
  run : selector → selector → M (state W) ()
}.
Arguments mkRunner {W} constructor_name run.
Arguments constructor_name {W} r.
Arguments run {W} r source dest.

Module FolderFlow.
Record config := Config {
  source : string;
  dest : string;
  expand : option bool;
  extension : option string
}.

Definition id (c : config) : string :=
  match extension c with
  | Some ext =>
      if str_truthy ext
      then "FolderFlow:" +:+ source c +:+ "#" +:+ ext
      else "FolderFlow:" +:+ source c
  | None => "FolderFlow:" +:+ source c
  end.

Section Execute.
Context {W : Type} `{!Host W}.

Definition execute (c : config) : M (state W) (selector * selector) :=
  do_mkdir (dest c) true;;
  if negb (default false (expand c))
  then ret (Str (source c), Str (dest c))
  else
    let* findLines :=
      (if negb (opt_truthy (extension c))
       then do_find (source c) None
       else do_find (source c) (Some ("*." +:+ default "" (extension c)))) in
    let files := List.filter str_truthy findLines in
    for_of files (λ line, emit (console_log ("Found file: " +:+ line)));;
    ret (Arr files, Str (dest c)).

Definition new (c : config) : Flow W := mkFlow (id c) (execute c).
End Execute.
End FolderFlow.

Module FileFlow.
Record config := Config { source : string; dest : string }.

Definition id (c : config) : string := "FileFlow:" +:+ source c.

Section Execute.
Context {W : Type}.

Definition execute (c : config) : M (state W) (selector * selector) :=
  ret (Str (source c), Str (dest c)).

Definition new (c : config) : Flow W := mkFlow (id c) (execute c).
End Execute.
End FileFlow.

Module VoidFileFlow.
Definition id (filePath : string) : string := "VoidFileFlow:" +:+ filePath.

Section Execute.
Context {W : Type}.

Definition execute (filePath : string) : M (state W) (selector * selector) :=
  ret (Str filePath, Undefined).

Definition new (filePath : string) : Flow W :=
  mkFlow (id filePath) (execute filePath).
End Execute.
End VoidFileFlow.

Module CopyRunner.
Section Run.
Context {W : Type} `{!Host W}.

(** [for (let i = 0; i < source.length; i++)], at index [i] with
    [rest] the elements of [source] from [i] on. *)
Fixpoint copy_from (i : nat) (rest dest : list string) : M (state W) () :=
  match rest with
  | [] => ret ()
  | s :: rest' =>
      emit (console_log ("Copying from " +:+ s +:+ " to " +:+ show (elem (dest !! i))));;
      do_cp (Str s) (elem (dest !! i));;
      copy_from (S i) rest' dest
  end.

Definition copy_into (dest : string) (src : string) : M (state W) () :=
  let baseName := path_basename src in
  let destPath := path_join dest baseName in
  emit (console_log ("Copying from " +:+ src +:+ " to " +:+ destPath));;
  do_cp (Str src) (Str destPath).

Definition run (source dest : selector) : M (state W) () :=
  if negb (truthy source) || negb (truthy dest)
  then emit (console_log "No source or destination provided to CopyRunner.")
  else
    match source, dest with
    | Arr source, Arr dest => copy_from 0 source dest
    | Arr source, Str dest => for_of source (copy_into dest)
    | Str source, Arr dest =>
        emit (console_log "Warning: Source is a single string but destination is an array. Using the first element of destination.");;
        let destPath := elem (dest !! 0) in
        emit (console_log ("Copying from " +:+ source +:+ " to " +:+ show destPath));;
        do_cp (Str source) destPath
    | _, _ =>
        (* both are strings *)
        emit (console_log ("Copying from " +:+ show source +:+ " to " +:+ show dest));;
        do_cp source dest
    end.

Definition new : Runner W := mkRunner "CopyRunner" run.
End Run.
End CopyRunner.


(** ** The project (current revision) *)

Module Project.
Record Step (W : Type) : Type := mkStep { runner : Runner W; flow : Flow W }.
Arguments mkStep {W} runner flow.
Arguments runner {W} _.
Arguments flow {W} _.

(** [flows] maps a flow identifier to the tracked files, a [Set<string>]
    (an array after [loadFromManifest]) given by its elements in iteration
    order.  The entries are the own properties of the object [this.flows];
    what reading an inherited property does is in [spread_tracked]. *)
Record t (W : Type) : Type := mk {
  name : string;
  steps : list (Step W);
  dependencies : gmap string string;
  flows : gmap string (list string)
}.
Arguments mk {W} name steps dependencies flows.
Arguments name {W} _.
Arguments steps {W} _.
Arguments dependencies {W} _.
Arguments flows {W} _.

(** [new Project(name, steps)] *)
Definition new {W} (name : string) (steps : list (Step W)) : t W :=
  mk name steps ∅ ∅.

Definition set_dependencies {W} (d : gmap string string) (this : t W) : t W :=
  mk (name this) (steps this) d (flows this).

Definition set_flows {W} (f : gmap string (list string)) (this : t W) : t W :=
  mk (name this) (steps this) (dependencies this) f.

Section Methods.
Context {W : Type} `{!Host W}.

(** Methods run on [this] and the host. *)
Definition lift {A} (m : M (state W) A) : M (t W * state W) A :=
  λ '(this, s), let '(r, s') := m s in (r, (this, s')).

Definition get_this : M (t W * state W) (t W) :=
  λ '(this, s), (Ok this, (this, s)).

Definition update_this (f : t W → t W) : M (t W * state W) () :=
  λ '(this, s), (Ok (), (f this, s)).

(** The files tracked for [id] after a resolution to [filesArray]:
    [new Set([...(this.flows[id] ?? []), ...filesArray].filter((f) =>
    filesArray.includes(f)))] *)
Definition merge (tracked : option (list string)) (filesArray : list string) : list string :=
  new_Set (List.filter (includes filesArray)
             (Array_from (default [] tracked) ++ filesArray)).

Definition executeStep (runner : Runner W) (flow : Flow W) : M (t W * state W) () :=
  let id := id flow in
  lift (emit (console_log ("Executing flow: " +:+ id)));;
  let* (files, destPath) := lift (execute flow) in
  match files with
  | Arr filesArray =>
      let* this := get_this in
      match spread_tracked (flows this) id with
      | Err e => throw e
      | Ok tracked =>
          update_this (set_flows (<[id := merge tracked filesArray]> (flows this)));;
          let* this := get_this in
          let filesArray := Array_from (default [] (flows this !! id)) in
          lift (emit (console_log ("Running runner: " +:+ constructor_name runner)));;
          lift (run runner (Arr filesArray) destPath)
      end
  | _ =>
      lift (emit (console_log ("Running runner: " +:+ constructor_name runner)));;
      lift (run runner files destPath)
  end.

Definition loadFromManifest : M (t W * state W) () :=
  let* manifestFile_exists := lift (do_exists MANIFEST_FILE) in
  if negb manifestFile_exists
  then throw (Error "manifestFileNotfound")
  else
    let* manifest := lift (do_json MANIFEST_FILE) in
    update_this (set_dependencies (doc_dependencies manifest));;
    update_this (set_flows (doc_flows manifest)).

Definition toJSON (this : t W) : manifest :=
  Manifest (name this) (dependencies this) (Array_from <$> flows this) None TMP_PATH.

Definition saveToManifest : M (t W * state W) () :=
  let* this := get_this in
  lift (do_write MANIFEST_FILE (toJSON this)).

(** The first part of [build]: the attempt to load the manifest and the
    staging of the assets, up to [process.chdir(TMP_PATH)]. *)
Definition stage : M (t W * state W) () :=
  let* this := get_this in
  lift (emit (console_log ("Building project: " +:+ name this)));;
  try_catch
    (loadFromManifest;;
     let* this := get_this in
     lift (emit (console_log_project (name this))))
    (λ err,
       if String.eqb (message err) "manifestFileNotfound"
       then lift (emit (console_warn "no manifest file were found"))
       else throw err);;
  lift (do_rm ("../" +:+ TMP_PATH));;
  lift (do_mkdir (TMP_PATH +:+ "/" +:+ ASSETS_PATH) true);;
  lift (do_cp (Str ASSETS_PATH) (Str (TMP_PATH +:+ "/" +:+ ASSETS_PATH +:+ "/")));;
  lift (do_chdir TMP_PATH).

(** [for (const { runner, flow } of this.steps) await this.executeStep(runner, flow)] *)
Definition executeSteps (l : list (Step W)) : M (t W * state W) () :=
  for_of l (λ s, executeStep (runner s) (flow s)).

(** The last part of [build], from [process.chdir('./..')] on. *)
Definition publish : M (t W * state W) () :=
  lift (do_chdir "./..");;
  lift (do_rm BUILD_PATH);;
  lift (do_mkdir BUILD_PATH false);;
  lift (do_cp (Str (TMP_PATH +:+ "/" +:+ BUILD_PATH)) (Str (BUILD_PATH +:+ "/")));;
  saveToManifest.

Definition build : M (t W * state W) () :=
  stage;;
  (let* this := get_this in executeSteps (steps this));;
  publish.
End Methods.
End Project.

(** ** The registry-based manifest codec (revision of lines 477-773) *)

Module ManifestCodec.
(** The classes of that revision.  [FolderFlow] and [FileFlow] keep their
    constructor argument in a property [config]; [VoidFileFlow] keeps it in
    [filePath]; [CopyRunner] takes no argument.  A [config] that was read
    from a manifest is whatever JSON the document holds. *)
Inductive RunnerObj : Type :=
| CopyRunner.

Inductive FlowObj : Type :=
| FolderFlow (config : json)
| FileFlow (config : json)
| VoidFileFlow (filePath : option json).

(** The constructors a caller can put in the registry. *)
Inductive RunnerClass : Type :=
| CopyRunnerClass.

Inductive FlowClass : Type :=
| FolderFlowClass
| FileFlowClass
| VoidFileFlowClass.

(** [func.prototype.constructor.name] *)
Definition runner_class_name (func : RunnerClass) : string :=
  match func with
  | CopyRunnerClass => "CopyRunner"
  end.

Definition flow_class_name (func : FlowClass) : string :=
  match func with
  | FolderFlowClass => "FolderFlow"
  | FileFlowClass => "FileFlow"
  | VoidFileFlowClass => "VoidFileFlow"
  end.

Definition runner_class_of (runner : RunnerObj) : RunnerClass :=
  match runner with
  | CopyRunner => CopyRunnerClass
  end.

Definition flow_class_of (flow : FlowObj) : FlowClass :=
  match flow with
  | FolderFlow _ => FolderFlowClass
  | FileFlow _ => FileFlowClass
  | VoidFileFlow _ => VoidFileFlowClass
  end.

(** ['config' in runner ? runner.config : undefined] *)
Definition runner_config (runner : RunnerObj) : option json :=
  match runner with
  | CopyRunner => None
  end.

(** ['config' in flow ? flow.config : undefined] *)
Definition flow_config (flow : FlowObj) : option json :=
  match flow with
  | FolderFlow config => Some config
  | FileFlow config => Some config
  | VoidFileFlow _ => None
  end.

(** What reading [this.config.source] of an [undefined] or [null] config
    throws (the text is the runtime's). *)
Definition config_TypeError : error :=
  mkError "TypeError" "undefined is not an object (evaluating 'this.config.source')".

(** [new func(config)] *)
Definition new_runner (func : RunnerClass) (config : option json) : result RunnerObj :=
  match func with
  | CopyRunnerClass => Ok CopyRunner
  end.

Definition new_flow (func : FlowClass) (config : option json) : result FlowObj :=
  match func, config with
  | VoidFileFlowClass, _ => Ok (VoidFileFlow config)
  | _, None => Err config_TypeError
  | _, Some JNull => Err config_TypeError
  | FolderFlowClass, Some c => Ok (FolderFlow c)
  | FileFlowClass, Some c => Ok (FileFlow c)
  end.

Record Step : Type := mkStep { runner : RunnerObj; flow : FlowObj }.

Record t : Type := mk {
  name : string;
  dependencies : gmap string string;
  flows : gmap string (list string);
  steps : list Step
}.

(** The optional second argument of [new Project(name, config)]. *)
Record Config : Type := mkConfig {
  tmpPath : option string;
  config_dependencies : option (gmap string string);
  config_flows : option (gmap string (list string));
  config_steps : option (list Step)
}.

Definition new (name : string) (config : option Config) : t :=
  match config with
  | Some config =>
      mk name
         (default ∅ (config_dependencies config))
         (default ∅ (config_flows config))
         (default [] (config_steps config))
  | None => mk name ∅ ∅ []
  end.

(** The caller-supplied [{ runners, flows }]. *)
Record Registry : Type := mkRegistry {
  registry_runners : list RunnerClass;
  registry_flows : list FlowClass
}.

Definition encode_step (s : Step) : step_doc :=
  StepDoc
    (ClassDoc (runner_class_name (runner_class_of (runner s))) (runner_config (runner s)))
    (ClassDoc (flow_class_name (flow_class_of (flow s))) (flow_config (flow s))).

Definition toJSON (this : t) : manifest :=
  Manifest (name this) (dependencies this) (Array_from <$> flows this)
           (Some (map encode_step (steps this))) TMP_PATH.

Definition not_found (className registry : string) : error :=
  Error ("could not find '" +:+ className +:+ "' on '" +:+ registry
         +:+ "', perhaps '" +:+ className +:+ "' is not defined on your config?").

(** What reading [manifest.steps.map] of a document without [steps] throws
    (the text is the runtime's). *)
Definition steps_TypeError : error :=
  mkError "TypeError" "undefined is not an object (evaluating 'manifest.steps.map')".

Definition of_result {S A} (r : result A) : M S A :=
  match r with
  | Ok a => ret a
  | Err e => throw e
  end.

(** [l.map(f)] for a callback that may throw. *)
Fixpoint map_M {S A B} (f : A → M S B) (l : list A) : M S (list B) :=
  match l with
  | [] => ret []
  | x :: l' =>
      let* y := f x in
      let* ys := map_M f l' in
      ret (y :: ys)
  end.

Section Methods.
Context {W : Type} `{!Host W}.

Definition decode_step (registry : Registry) (s : step_doc) : M (state W) Step :=
  let* runner :=
    (match List.find (λ func, String.eqb (runner_class_name func) (className (doc_runner s)))
                     (registry_runners registry) with
     | Some func => of_result (new_runner func (config (doc_runner s)))
     | None => throw (not_found (className (doc_runner s)) "config.runners")
     end) in
  let* flow :=
    (match List.find (λ func, String.eqb (flow_class_name func) (className (doc_flow s)))
                     (registry_flows registry) with
     | Some func => of_result (new_flow func (config (doc_flow s)))
     | None => throw (not_found (className (doc_flow s)) "config.flows")
     end) in
  ret (mkStep runner flow).

(** [loadFromManifest] from the point where the document has been read. *)
Definition fromManifest (registry : Registry) (manifest : manifest) : M (state W) t :=
  let* steps :=
    (match doc_steps manifest with
     | Some steps => map_M (decode_step registry) steps
     | None => throw steps_TypeError
     end) in
  ret (new (doc_name manifest)
           (Some (mkConfig (Some (doc_tmpPath manifest))
                           (Some (doc_dependencies manifest))
                           (Some (doc_flows manifest))
                           (Some steps)))).

Definition loadFromManifest (registry : Registry) : M (state W) t :=
  let* manifestFile_exists := do_exists MANIFEST_FILE in
  if negb manifestFile_exists
  then throw (Error "manifestFileNotfound")
  else
    let* manifest := do_json MANIFEST_FILE in
    fromManifest registry manifest.

Definition saveToManifest (this : t) : M (state W) () :=
  do_write MANIFEST_FILE (toJSON this).
End Methods.
End ManifestCodec.

(** ** Tracking in [executeRunner] (revision of lines 477-773)

    The step method of that revision; of the project it only uses
    [this.flows], which is the state here besides the host.  [name] is
    [runner.name], the property that this revision logs. *)

Module ExecuteRunner.
(** [Array.isArray(files) ? files : files ? [files] : []] *)
Definition as_array (files : selector) : list string :=
  match files with
  | Arr files => files
  | Str file => if str_truthy file then [file] else []
  | Undefined => []
  end.

Section Methods.
Context {W : Type} `{!Host W}.

Definition lift {A} (m : M (state W) A) : M (gmap string (list string) * state W) A :=
  λ '(flows, s), let '(r, s') := m s in (r, (flows, s')).

Definition executeRunner (name : string) (runner : Runner W) (flow : Flow W)
  : M (gmap string (list string) * state W) () :=
  let id := id flow in
  lift (emit (console_log ("Executing flow: " +:+ id)));;
  let* (files, destPath) := lift (execute flow) in
  let filesArray := as_array files in
  (λ '(flows, s),
     match spread_tracked flows id with
     | Err e => (Err e, (flows, s))
     | Ok tracked =>
         (Ok (), (<[id := new_Set (List.filter (includes filesArray)
                                     (Array_from (default [] tracked) ++ filesArray))]> flows,
                  s))
     end);;
  lift (emit (console_log ("Running runner: " +:+ name)));;
  lift (run runner files destPath).
End Methods.
End ExecuteRunner.

(** ** The oldest revision (lines 264-476), as far as it is referred to *)

Module Legacy.
(** [VoidFlow]: [id: string = 'VoidFlow'], whatever the path. *)
Definition VoidFlow_id (filePath : string) : string := "VoidFlow".

(** [executeRunner]: the tracked files after a resolution to [files]; the
    runner is then run on [files] itself. *)
Definition merge (tracked : option (list string)) (files : list string) : list string :=
  fold_left Set_add files
    (new_Set (List.filter (λ f, negb (includes files f))
                (Array_from (default [] tracked)))).

Section FileFlow.
Context {W : Type} `{!Host W}.

Definition TMP_ASSETS_PATH : string := path_join TMP_PATH "assets".

(** [FileFlow.execute] *)
Definition FileFlow_execute (filePath destPath : string) : M (state W) (selector * selector) :=
  let file := path_join TMP_ASSETS_PATH filePath in
  ret (Arr [file], Str destPath).
End FileFlow.
End Legacy.

(** ** A small concrete host

    Used to run the module on concrete inputs: the world is the list of the
    paths that exist and the content of the manifest file. *)

Module SimHost.
Record world : Type := World {
  paths : list string;
  manifest_file : option manifest
}.

Definition ENOENT (p : string) : error :=
  mkError "Error" ("ENOENT: no such file or directory, '" +:+ p +:+ "'").

Definition ERR_INVALID_ARG_TYPE : error :=
  mkError "TypeError" "The path argument must be of type string".

Fixpoint last_segment (acc s : string) : string :=
  match s with
  | EmptyString => acc
  | String c s' =>
      if String.eqb (String c "") "/"
      then last_segment "" s'
      else last_segment (acc +:+ String c "") s'
  end.

Definition sim_cp (src dest : selector) (w : world) : result () * world :=
  match src, dest with
  | Str s, Str d =>
      if includes (paths w) s
      then (Ok (), World (d :: paths w) (manifest_file w))
      else (Err (ENOENT s), w)
  | _, _ => (Err ERR_INVALID_ARG_TYPE, w)
  end.

Definition sim_find (dir : string) (pat : option string) (w : world)
  : result (list string) * world :=
  (Ok (List.filter (String.prefix (dir +:+ "/")) (paths w)), w).

Definition sim_json (p : string) (w : world) : result manifest * world :=
  match manifest_file w with
  | Some doc => (Ok doc, w)
  | None => (Err (ENOENT p), w)
  end.

#[global] Instance host : Host world := {|
  host_cp := sim_cp;
  host_mkdir := λ p _ w, (Ok (), World (p :: paths w) (manifest_file w));
  host_rm := λ p w,
    (Ok (), World (List.filter (λ q, negb (String.eqb p q)) (paths w)) (manifest_file w));
  host_find := sim_find;
  host_chdir := λ _ w, (Ok (), w);
  host_exists := λ _ w, (if manifest_file w is Some _ then true else false, w);
  host_json := sim_json;
  host_write := λ _ doc w, (Ok (), World (paths w) (Some doc));
  path_basename := last_segment "";
  path_join := λ a b, a +:+ "/" +:+ b
|}.

(** A world with the given paths and no manifest, and nothing traced. *)
Definition init (ps : list string) : state world := State (World ps None) [].
End SimHost.

(** ** Vocabulary of the statements *)

(** The copies in a trace. *)
Definition is_cp (ev : event) : bool :=
  match ev with
  | cp _ _ => true
  | _ => false
  end.

Definition copies (tr : list event) : list event := List.filter is_cp tr.

(** The state after a line has been written with [console.log]. *)
Definition logged {W} (line : string) (st : state W) : state W :=
  State (world st) (trace st ++ [console_log line]).

(** The state after a host call that answered with the world [w]. *)
Definition called {W} (ev : event) (w : W) (st : state W) : state W :=
  State w (trace st ++ [ev]).

(** The copy calls of the index loop of [CopyRunner.run] for a list source
    and a list destination, if none of them fails: [source[i]] to
    [dest[i]] for every index [i] of the source, starting at index [i0]. *)
Definition attempts (i0 : nat) (source dest : list string) : list event :=
  imap (λ j s, cp (Str s) (elem (dest !! (i0 + j)))) source.

(** The flows that the module constructs, by variant. *)
Inductive builtin_flow : Type :=
| Folder (c : FolderFlow.config)
| File (c : FileFlow.config)
| VoidFile (filePath : string).

Definition tag (f : builtin_flow) : string :=
  match f with
  | Folder _ => "FolderFlow"
  | File _ => "FileFlow"
  | VoidFile _ => "VoidFileFlow"
  end.

Definition source_of (f : builtin_flow) : string :=
  match f with
  | Folder c => FolderFlow.source c
  | File c => FileFlow.source c
  | VoidFile filePath => filePath
  end.

(** The extension as the identifier sees it: an empty one counts as none. *)
Definition extension_of (f : builtin_flow) : option string :=
  match f with
  | Folder c =>
      match FolderFlow.extension c with
      | Some ext => if str_truthy ext then Some ext else None
      | None => None
      end
  | _ => None
  end.

Definition id_of (f : builtin_flow) : string :=
  match f with
  | Folder c => FolderFlow.id c
  | File c => FileFlow.id c
  | VoidFile filePath => VoidFileFlow.id filePath
  end.

Definition to_flow {W} `{!Host W} (f : builtin_flow) : Flow W :=
  match f with
  | Folder c => FolderFlow.new c
  | File c => FileFlow.new c
  | VoidFile filePath => VoidFileFlow.new filePath
  end.

(** Does the character ["#"] occur in a path? *)
Fixpoint has_hash (s : string) : bool :=
  match s with
  | EmptyString => false
  | String c s' => String.eqb (String c "") "#" || has_hash s'
  end.

(** [Array.isArray] *)
Definition isArray (v : selector) : bool :=
  match v with
  | Arr _ => true
  | _ => false
  end.

(** A method that does not assign [this.steps]. *)
Definition keeps_steps {W A} (m : M (Project.t W * state W) A) : Prop :=
  ∀ this st, Project.steps (m (this, st)).2.1 = Project.steps this.

(** The events that [CopyRunner.run] adds to a trace. *)
Definition is_log_or_cp (ev : event) : bool :=
  match ev with
  | console_log _ => true
  | cp _ _ => true
  | _ => false
  end.

(** A [console.log] line. *)
Definition is_console_log (ev : event) : bool :=
  match ev with
  | console_log _ => true
  | _ => false
  end.

(** The key [id] can be read from [flows] and spread: it is an own
    property, or it is not the name of an inherited one. *)
Definition readable (flows : gmap string (list string)) (id : string) : bool :=
  match flows !! id with
  | Some _ => true
  | None => negb (inherited id)
  end.

(** The [-name] pattern that [FolderFlow.execute] hands to [find]. *)
Definition find_pattern (c : FolderFlow.config) : option string :=
  if opt_truthy (FolderFlow.extension c)
  then Some ("*." +:+ default "" (FolderFlow.extension c))
  else None.


(** A method that leaves the part [f] of [this] as it was. *)
Definition keeps {W A B} (f : Project.t W → B) (m : M (Project.t W * state W) A) : Prop :=
  ∀ this st, f (m (this, st)).2.1 = f this.

(** The host keeps what is written to the manifest file: in the world
    [w], writing [doc] succeeds, after which the file exists and reading
    it gives [doc] back. *)
Definition keeps_manifest {W} `{!Host W} (doc : manifest) (w : W) : Prop :=
  let written := host_write MANIFEST_FILE doc w in
  let asked := host_exists MANIFEST_FILE written.2 in
  let read := host_json MANIFEST_FILE asked.2 in
  written.1 = Ok () ∧ asked.1 = true ∧ read.1 = Ok doc.

(** A computation that, from every state, only adds [console.log] lines
    and copy calls to the trace, and that throws only what a copy call of
    the host threw. *)
Definition copy_only {W} `{!Host W} {A} (m : M (state W) A) : Prop :=
  ∀ st,
    (∃ tr, trace (m st).2 = trace st ++ tr ∧ Forall (λ ev, is_log_or_cp ev = true) tr)
    ∧ (∀ e, (m st).1 = Err e → ∃ s d w, (host_cp s d w).1 = Err e).

(** A host on which the manifest file exists and cannot be parsed; every
    other call succeeds and changes nothing. *)
Module CorruptManifestHost.
Definition SyntaxError : error := mkError "SyntaxError" "JSON Parse error: Unexpected EOF".

Definition host : Host () := {|
  host_cp := λ _ _ w, (Ok (), w);
  host_mkdir := λ _ _ w, (Ok (), w);
  host_rm := λ _ w, (Ok (), w);
  host_find := λ _ _ w, (Ok [], w);
  host_chdir := λ _ w, (Ok (), w);
  host_exists := λ _ w, (true, w);
  host_json := λ _ w, (Err SyntaxError, w);
  host_write := λ _ _ w, (Ok (), w);
  path_basename := λ p, p;
  path_join := λ a b, a +:+ "/" +:+ b
|}.
End CorruptManifestHost.

(** A project of the codec's revision as [toJSON] sees it: a
    [VoidFileFlow] without its path. *)
Definition erase_flow (flow : ManifestCodec.FlowObj) : ManifestCodec.FlowObj :=
  match flow with
  | ManifestCodec.VoidFileFlow _ => ManifestCodec.VoidFileFlow None
  | _ => flow
  end.

Definition erase_step (s : ManifestCodec.Step) : ManifestCodec.Step :=
  ManifestCodec.mkStep (ManifestCodec.runner s) (erase_flow (ManifestCodec.flow s)).

Definition erase_paths (this : ManifestCodec.t) : ManifestCodec.t :=
  ManifestCodec.mk (ManifestCodec.name this) (ManifestCodec.dependencies this)
    (ManifestCodec.flows this) (map erase_step (ManifestCodec.steps this)).

(** The classes of a step are in the registry, and the [config] of
    its flow, if it has one, is not [null]. *)
Definition decodable (registry : ManifestCodec.Registry) (s : ManifestCodec.Step) : Prop :=
  ManifestCodec.runner_class_of (ManifestCodec.runner s)
    ∈ ManifestCodec.registry_runners registry
  ∧ ManifestCodec.flow_class_of (ManifestCodec.flow s)
    ∈ ManifestCodec.registry_flows registry
  ∧ ManifestCodec.flow_config (ManifestCodec.flow s) ≠ Some JNull.

(** ** Properties *)

(** *** The monad *)

Lemma bind_ok {S A B} (m : M S A) (k : A → M S B) s a s' :
  m s = (Ok a, s') → bind m k s = k a s'.
Proof. unfold bind. by intros ->. Qed.

Lemma bind_err {S A B} (m : M S A) (k : A → M S B) s e s' :
  m s = (Err e, s') → bind m k s = (Err e, s').
Proof. unfold bind. by intros ->. Qed.

(** Unfold the operations of the monad and the host calls. *)
Ltac unfold_M :=
  unfold bind, ret, throw, emit, do_cp, do_mkdir, do_rm, do_find, do_chdir,
    do_exists, do_json, do_write, call; simpl.

(** A loop over [l1 ++ l2] is the loop over [l1] followed by the loop over
    [l2]: the elements are handled in the order of the list. *)
Lemma for_of_app {S A} (f : A → M S ()) l1 l2 :
  ∀ s, for_of (l1 ++ l2) f s = (for_of l1 f;; for_of l2 f) s.
Proof.
  induction l1 as [|x l1 IH]; intros s; simpl.
  - reflexivity.
  - unfold bind. destruct (f x s) as [[[]|e] s1]; [|done].
    rewrite IH. reflexivity.
Qed.

(** A loop stops at the first element whose body throws. *)
Lemma for_of_stops {S A} (f : A → M S ()) l1 x l2 s s1 e s2 :
  for_of l1 f s = (Ok (), s1) →
  f x s1 = (Err e, s2) →
  for_of (l1 ++ x :: l2) f s = (Err e, s2).
Proof.
  intros H1 H2. rewrite for_of_app.
  rewrite (bind_ok _ _ _ _ _ H1). simpl.
  by rewrite (bind_err _ _ _ _ _ H2).
Qed.

(** *** Sets of paths *)

Lemma includes_true l f : includes l f = true ↔ f ∈ l.
Proof. unfold includes. by rewrite bool_decide_eq_true. Qed.

Lemma Set_add_spec s x y : y ∈ Set_add s x ↔ y ∈ s ∨ y = x.
Proof.
  unfold Set_add. destruct (includes s x) eqn:E.
  - apply includes_true in E. split; [by left|]. intros [?| ->]; done.
  - rewrite elem_of_app, list_elem_of_singleton. done.
Qed.

Lemma Set_add_NoDup s x : NoDup s → NoDup (Set_add s x).
Proof.
  intros Hs. unfold Set_add. destruct (includes s x) eqn:E; [done|].
  apply NoDup_app. split_and!; [done| |apply NoDup_singleton].
  intros y Hy ->%list_elem_of_singleton.
  apply includes_true in Hy. congruence.
Qed.

Lemma fold_Set_add_spec l : ∀ s y,
  y ∈ fold_left Set_add l s ↔ y ∈ s ∨ y ∈ l.
Proof.
  induction l as [|x l IH]; intros s y; simpl.
  - rewrite elem_of_nil. tauto.
  - rewrite IH, Set_add_spec, elem_of_cons. tauto.
Qed.

Lemma fold_Set_add_NoDup l : ∀ s, NoDup s → NoDup (fold_left Set_add l s).
Proof.
  induction l as [|x l IH]; intros s Hs; simpl; [done|].
  by apply IH, Set_add_NoDup.
Qed.

Lemma new_Set_spec l y : y ∈ new_Set l ↔ y ∈ l.
Proof.
  unfold new_Set. rewrite fold_Set_add_spec, elem_of_nil. tauto.
Qed.

Lemma new_Set_NoDup l : NoDup (new_Set l).
Proof. apply fold_Set_add_NoDup, NoDup_nil_2. Qed.

Lemma elem_of_List_filter (p : string → bool) l y :
  y ∈ List.filter p l ↔ y ∈ l ∧ p y = true.
Proof. rewrite !list_elem_of_In. apply filter_In. Qed.

Lemma merge_spec tracked files y :
  y ∈ Project.merge tracked files ↔ y ∈ files.
Proof.
  unfold Project.merge. rewrite new_Set_spec, elem_of_List_filter.
  rewrite includes_true, elem_of_app. tauto.
Qed.

(** In the oldest revision the tracked files only grew: a path that is
    not resolved any more stays tracked. *)
Lemma Legacy_merge_is_union tracked files y :
  y ∈ Legacy.merge tracked files ↔ y ∈ default [] tracked ∨ y ∈ files.
Proof.
  unfold Legacy.merge, Array_from.
  rewrite fold_Set_add_spec, new_Set_spec, elem_of_List_filter.
  rewrite negb_true_iff, <- not_true_iff_false, includes_true.
  destruct (decide (y ∈ files)); tauto.
Qed.

(** *** Traces *)

Lemma copies_app tr1 tr2 : copies (tr1 ++ tr2) = copies tr1 ++ copies tr2.
Proof. unfold copies. induction tr1 as [|ev tr1 IH]; simpl; [done|]. destruct (is_cp ev); simpl; by rewrite IH. Qed.

Lemma trace_logged {W} line (st : state W) :
  trace (logged line st) = trace st ++ [console_log line].
Proof. reflexivity. Qed.

(** *** Flow resolution *)

Section FlowResolution.
Context {W : Type} `{!Host W}.

(** C7, as the code has it: for every FileFlow configuration, [execute]
    returns the configured source as a single path (not as a one-element
    list) together with the configured destination, both unchanged, and
    makes no host call: the state, and with it the trace, is the one it
    started from. *)
Theorem FileFlow_execute_scalar (c : FileFlow.config) (st : state W) :
  FileFlow.execute c st = (Ok (Str (FileFlow.source c), Str (FileFlow.dest c)), st).
Proof. reflexivity. Qed.

(** In the oldest revision [FileFlow.execute] did return a one-element
    list, but of the path joined to the staged assets directory. *)
Lemma Legacy_FileFlow_execute_list (filePath destPath : string) (st : state W) :
  Legacy.FileFlow_execute filePath destPath st
  = (Ok (Arr [path_join (path_join TMP_PATH "assets") filePath], Str destPath), st).
Proof. reflexivity. Qed.
End FlowResolution.

(** C7 as stated fails: the source does not come back as a one-element
    list. *)
Lemma FileFlow_execute_not_a_list :
  FileFlow.execute (FileFlow.Config "assets/favicon.ico" "build/favicon.ico") (SimHost.init [])
  ≠ (Ok (Arr ["assets/favicon.ico"], Str "build/favicon.ico"), SimHost.init []).
Proof. unfold FileFlow.execute, ret. simpl. discriminate. Qed.

(** *** The copy runner *)

Section CopyRunnerProperties.
Context {W : Type} `{!Host W}.

Lemma run_falsy (source dest : selector) (st : state W) :
  truthy source = false ∨ truthy dest = false →
  CopyRunner.run source dest st
  = (Ok (), logged "No source or destination provided to CopyRunner." st).
Proof.
  intros H. unfold CopyRunner.run.
  assert (negb (truthy source) || negb (truthy dest) = true) as ->; [|done].
  destruct H as [-> | ->]; simpl; [done|]. apply orb_true_r.
Qed.

(** C9: with the empty string as source, whatever the destination, and
    with the empty string as destination, whatever the source,
    [CopyRunner.run] returns successfully after the one line it logs: the
    world is untouched and the trace has no further copy.  This is exactly
    what it does for an absent ([undefined]) selector. *)
Theorem run_empty_string_skipped (x : selector) (st : state W) :
  let skipped := logged "No source or destination provided to CopyRunner." st in
  CopyRunner.run (Str "") x st = (Ok (), skipped)
  ∧ CopyRunner.run x (Str "") st = (Ok (), skipped)
  ∧ CopyRunner.run (Str "") x st = CopyRunner.run Undefined x st
  ∧ CopyRunner.run x (Str "") st = CopyRunner.run x Undefined st
  ∧ world skipped = world st
  ∧ copies (trace skipped) = copies (trace st).
Proof.
  intros skipped. split_and!.
  - apply run_falsy. by left.
  - apply run_falsy. by right.
  - rewrite !run_falsy; auto.
  - rewrite !run_falsy; auto.
  - reflexivity.
  - unfold skipped. rewrite trace_logged, copies_app. simpl. apply app_nil_r.
Qed.

(** C8, as the code has it: for a non-empty single path as source and a
    list as destination, [CopyRunner.run] logs the warning, logs the copy
    and makes exactly one copy call, from the source to the first element
    of the destination list ([undefined] for the empty list).  It throws
    nothing of its own: its outcome is the outcome of that one call. *)
Theorem run_scalar_to_list (source : string) (dest : list string) (st : state W) :
  str_truthy source = true →
  let destPath := elem (dest !! 0) in
  let answer := host_cp (Str source) destPath (world st) in
  let tr :=
    trace st ++
    [console_log "Warning: Source is a single string but destination is an array. Using the first element of destination.";
     console_log ("Copying from " +:+ source +:+ " to " +:+ show destPath);
     cp (Str source) destPath] in
  CopyRunner.run (Str source) (Arr dest) st = (answer.1, State answer.2 tr)
  ∧ copies tr = copies (trace st) ++ [cp (Str source) destPath].
Proof.
  intros Hs destPath answer tr. split.
  - unfold CopyRunner.run. simpl. rewrite Hs. simpl. unfold_M.
    fold destPath. fold answer. destruct answer as [r w] eqn:E. simpl.
    unfold tr. rewrite <- !app_assoc. simpl. by destruct r.
  - unfold tr. by rewrite copies_app.
Qed.
End CopyRunnerProperties.

Lemma run_scalar_to_list_witness :
  str_truthy "assets/favicon.ico" = true
  ∧ copies (trace (CopyRunner.run (Str "assets/favicon.ico") (Arr ["build/favicon.ico"; "build/other.ico"])
                     (SimHost.init ["assets/favicon.ico"])).2)
    = [cp (Str "assets/favicon.ico") (Str "build/favicon.ico")].
Proof.
  split; [reflexivity|].
  destruct (run_scalar_to_list "assets/favicon.ico" ["build/favicon.ico"; "build/other.ico"]
              (SimHost.init ["assets/favicon.ico"]) eq_refl) as [-> _].
  reflexivity.
Defined.

(** C8 as stated fails for the empty path: nothing is copied, and the
    line that is logged is the one of the guard, not the warning. *)
Lemma run_empty_source_to_list_no_copy :
  CopyRunner.run (Str "") (Arr ["build/favicon.ico"]) (SimHost.init ["assets/favicon.ico"])
  = (Ok (), State (SimHost.World ["assets/favicon.ico"] None)
                  [console_log "No source or destination provided to CopyRunner."])
  ∧ copies (trace (CopyRunner.run (Str "") (Arr ["build/favicon.ico"])
                     (SimHost.init ["assets/favicon.ico"])).2) = [].
Proof. split; reflexivity. Qed.

Section CopyRunnerLists.
Context {W : Type} `{!Host W}.

Lemma attempts_cons i s rest dest :
  attempts i (s :: rest) dest = cp (Str s) (elem (dest !! i)) :: attempts (S i) rest dest.
Proof.
  unfold attempts. rewrite imap_cons. f_equal.
  - by rewrite Nat.add_0_r.
  - apply imap_ext. intros j x _. simpl. by rewrite Nat.add_succ_r.
Qed.

Lemma attempts_length i source dest : length (attempts i source dest) = length source.
Proof. unfold attempts. apply length_imap. Qed.

(** One turn of the index loop. *)
Lemma copy_from_cons i s rest dest (st : state W) :
  CopyRunner.copy_from i (s :: rest) dest st =
  let d := elem (dest !! i) in
  let st' w := State w (trace st ++ [console_log ("Copying from " +:+ s +:+ " to " +:+ show d);
                                     cp (Str s) d]) in
  match host_cp (Str s) d (world st) with
  | (Ok _, w) => CopyRunner.copy_from (S i) rest dest (st' w)
  | (Err e, w) => (Err e, st' w)
  end.
Proof.
  simpl. unfold_M.
  destruct (host_cp (Str s) (elem (dest !! i)) (world st)) as [[[]|e] w];
    by rewrite <- app_assoc.
Qed.

(** The index loop: the copies it makes are the first [n] of the
    index-wise copy calls; it ends normally only after all of them, and
    it throws only what the [n]-th copy call threw. *)
Lemma copy_from_spec rest dest : ∀ i (st : state W),
  let out := CopyRunner.copy_from i rest dest st in
  ∃ n : nat, (n ≤ length rest)%nat
    ∧ (rest ≠ [] → 0 < n)%nat
    ∧ copies (trace out.2) = copies (trace st) ++ take n (attempts i rest dest)
    ∧ (out.1 = Ok () → n = length rest)
    ∧ (∀ e, out.1 = Err e →
         (0 < n)%nat
         ∧ ∃ s d w, attempts i rest dest !! (n - 1)%nat = Some (cp (Str s) d)
                    ∧ (host_cp (Str s) d w).1 = Err e).
Proof.
  induction rest as [|s rest IH]; intros i st out.
  - exists 0%nat. subst out. simpl. split_and!; try done.
    by rewrite app_nil_r.
  - subst out. rewrite attempts_cons, copy_from_cons. cbv zeta.
    destruct (host_cp (Str s) (elem (dest !! i)) (world st)) as [r w] eqn:Hcp.
    destruct r as [[]|e].
    + set (st2 := State w _).
      destruct (IH (S i) st2) as (n & Hn & _ & Hc & Hok & Herr).
      exists (S n). split_and!.
      * simpl. lia.
      * lia.
      * rewrite Hc. unfold st2. simpl. rewrite !copies_app. simpl.
        by rewrite <- app_assoc.
      * intros Hr. simpl. f_equal. by apply Hok.
      * intros e Hr.
        destruct (Herr e Hr) as (Hpos & s' & d & w' & Hat & Hh).
        split; [lia|]. exists s', d, w'. split; [|done].
        destruct n as [|n]; [lia|].
        simpl in *. by rewrite Nat.sub_0_r in Hat.
    + exists 1%nat. split_and!.
      * simpl. lia.
      * lia.
      * simpl. by rewrite !copies_app.
      * done.
      * intros e' [= <-]. split; [lia|].
        exists s, (elem (dest !! i)), (world st).
        split; [done|]. by rewrite Hcp.
Qed.

(** C3, as the code has it: for a list source and a list destination,
    whatever their lengths, [CopyRunner.run] makes no length check and
    throws no error of its own.  It copies by index, [source[i]] to
    [dest[i]] ([undefined] where the destination has no index [i]),
    starting with index 0: the copies it makes are the first [n] of these
    calls, with [n > 0] unless the source is empty; it returns normally
    only after one copy call per source element, and an error it ends with
    is the error of the last copy call made. *)
Theorem run_lists_by_index (source dest : list string) (st : state W) :
  let out := CopyRunner.run (Arr source) (Arr dest) st in
  ∃ n : nat, (n ≤ length source)%nat
    ∧ (source ≠ [] → 0 < n)%nat
    ∧ copies (trace out.2) = copies (trace st) ++ take n (attempts 0 source dest)
    ∧ (out.1 = Ok () → n = length source)
    ∧ (∀ e, out.1 = Err e →
         (0 < n)%nat
         ∧ ∃ s d w, attempts 0 source dest !! (n - 1)%nat = Some (cp (Str s) d)
                    ∧ (host_cp (Str s) d w).1 = Err e).
Proof. apply copy_from_spec. Qed.
End CopyRunnerLists.

(** C3 as stated fails: with a destination list longer than the source
    list the copy is made and the run ends normally. *)
Lemma run_lists_longer_dest_copies :
  (CopyRunner.run (Arr ["assets/a.txt"]) (Arr ["build/a.txt"; "build/b.txt"])
     (SimHost.init ["assets/a.txt"])).1 = Ok ()
  ∧ copies (trace (CopyRunner.run (Arr ["assets/a.txt"]) (Arr ["build/a.txt"; "build/b.txt"])
                     (SimHost.init ["assets/a.txt"])).2)
    = [cp (Str "assets/a.txt") (Str "build/a.txt")].
Proof. split; reflexivity. Qed.

(** With a shorter destination list the copies for the indices it has are
    made before the copy call without a destination fails. *)
Lemma run_lists_shorter_dest_copies_first :
  (CopyRunner.run (Arr ["assets/a.txt"; "assets/b.txt"]) (Arr ["build/a.txt"])
     (SimHost.init ["assets/a.txt"; "assets/b.txt"])).1 = Err SimHost.ERR_INVALID_ARG_TYPE
  ∧ copies (trace (CopyRunner.run (Arr ["assets/a.txt"; "assets/b.txt"]) (Arr ["build/a.txt"])
                     (SimHost.init ["assets/a.txt"; "assets/b.txt"])).2)
    = [cp (Str "assets/a.txt") (Str "build/a.txt"); cp (Str "assets/b.txt") Undefined].
Proof. split; reflexivity. Qed.

(** *** One step of the build *)

Section ExecuteStep.
Context {W : Type} `{!Host W}.

Lemma spread_tracked_readable (flows : gmap string (list string)) id :
  readable flows id = true → spread_tracked flows id = Ok (flows !! id).
Proof.
  unfold readable, spread_tracked. destruct (flows !! id); [done|].
  by destruct (inherited id).
Qed.

Lemma spread_tracked_unreadable (flows : gmap string (list string)) id :
  readable flows id = false → spread_tracked flows id = Err spread_TypeError.
Proof.
  unfold readable, spread_tracked. destruct (flows !! id); [done|].
  by destruct (inherited id).
Qed.

(** [executeStep] up to the point where the flow has been resolved. *)
Lemma executeStep_resolved runner flow (this : Project.t W) st files destPath st1 :
  execute flow (logged ("Executing flow: " +:+ id flow) st) = (Ok (files, destPath), st1) →
  Project.executeStep runner flow (this, st) =
  match files with
  | Arr filesArray =>
      match spread_tracked (Project.flows this) (id flow) with
      | Err e => (Err e, (this, st1))
      | Ok before =>
          let tracked := Project.merge before filesArray in
          let out := run runner (Arr tracked) destPath
                       (logged ("Running runner: " +:+ constructor_name runner) st1) in
          (out.1, (Project.set_flows (<[id flow := tracked]> (Project.flows this)) this, out.2))
      end
  | _ =>
      let out := run runner files destPath
                   (logged ("Running runner: " +:+ constructor_name runner) st1) in
      (out.1, (this, out.2))
  end.
Proof.
  intros Hex. unfold Project.executeStep.
  unfold bind at 1. unfold Project.lift at 1. unfold emit at 1. simpl.
  unfold bind at 1. unfold Project.lift at 1.
  unfold logged in Hex. rewrite Hex.
  destruct files as [|p|filesArray].
  - unfold bind, Project.lift, emit. simpl. unfold logged.
    by destruct (run runner Undefined destPath _) as [r st2].
  - unfold bind, Project.lift, emit. simpl. unfold logged.
    by destruct (run runner (Str p) destPath _) as [r st2].
  - unfold bind at 1. unfold Project.get_this at 1.
    destruct (spread_tracked (Project.flows this) (id flow)) as [before|e]; [|done].
    unfold bind, Project.update_this, Project.get_this, Project.lift, emit. simpl.
    rewrite lookup_insert_eq. simpl. unfold logged, Array_from.
    by destruct (run runner (Arr _) destPath _) as [r st2].
Qed.

(** A list resolution for an identifier that [flows] only inherits: the
    spread of [this.flows[id]] throws, nothing is tracked and the runner
    is not run. *)
Lemma executeStep_unreadable_throws
    runner flow (this : Project.t W) st (files : list string) destPath st1 :
  readable (Project.flows this) (id flow) = false →
  execute flow (logged ("Executing flow: " +:+ id flow) st) = (Ok (Arr files, destPath), st1) →
  Project.executeStep runner flow (this, st) = (Err spread_TypeError, (this, st1)).
Proof.
  intros Hread Hex. rewrite (executeStep_resolved _ _ _ _ _ _ _ Hex).
  by rewrite (spread_tracked_unreadable _ _ Hread).
Qed.

(** C1, as the code has it: when the identifier of the flow of a step is
    an own key of [flows], or is not a property name that a plain object
    inherits from [Object.prototype], and the flow resolves to a list of
    files, then after [executeStep] the files tracked for the identifier
    are exactly the files of this resolution (a path tracked before and
    not resolved now is gone), each of them once, and the runner has been
    run on that duplicate-free list and the resolved destination; no other
    entry of [flows] has changed. *)
Theorem executeStep_tracks_current_resolution
    runner flow (this : Project.t W) st (files : list string) destPath st1 :
  readable (Project.flows this) (id flow) = true →
  execute flow (logged ("Executing flow: " +:+ id flow) st) = (Ok (Arr files, destPath), st1) →
  ∃ tracked : list string,
    (∀ f, f ∈ tracked ↔ f ∈ files)
    ∧ NoDup tracked
    ∧ (let out := run runner (Arr tracked) destPath
                    (logged ("Running runner: " +:+ constructor_name runner) st1) in
       Project.executeStep runner flow (this, st) =
       (out.1, (Project.set_flows (<[id flow := tracked]> (Project.flows this)) this, out.2))).
Proof.
  intros Hread Hex.
  exists (Project.merge (Project.flows this !! id flow) files). split_and!.
  - intros f. apply merge_spec.
  - apply new_Set_NoDup.
  - rewrite (executeStep_resolved _ _ _ _ _ _ _ Hex).
    by rewrite (spread_tracked_readable _ _ Hread).
Qed.

(** C10, as the code has it: when the flow of a step resolves to a source
    that is not a list (a single path or [undefined]), [executeStep] runs
    the runner on the resolved source and destination and leaves the
    project as it was, the map [flows] included: an identifier is a key of
    [flows] after the step exactly if it was one before, with the same
    files, and the manifest document of the project is the same as
    before.  (An entry that was there, for instance loaded from the
    manifest, stays and is saved again.) *)
Theorem executeStep_scalar_leaves_flows
    runner flow (this : Project.t W) st (files destPath : selector) st1 :
  execute flow (logged ("Executing flow: " +:+ id flow) st) = (Ok (files, destPath), st1) →
  isArray files = false →
  let out := run runner files destPath
               (logged ("Running runner: " +:+ constructor_name runner) st1) in
  Project.executeStep runner flow (this, st) = (out.1, (this, out.2))
  ∧ Project.flows (Project.executeStep runner flow (this, st)).2.1 = Project.flows this
  ∧ (∀ k, Project.flows (Project.executeStep runner flow (this, st)).2.1 !! k
          = Project.flows this !! k)
  ∧ Project.toJSON (Project.executeStep runner flow (this, st)).2.1 = Project.toJSON this.
Proof.
  intros Hex Hscalar out.
  rewrite (executeStep_resolved _ _ _ _ _ _ _ Hex).
  by destruct files as [|p|filesArray].
Qed.
End ExecuteStep.

Lemma executeStep_tracks_current_resolution_witness :
  let flow := FolderFlow.new (FolderFlow.Config "assets/fonts" "build/fonts" (Some true) None) in
  let this :=
    Project.mk "bao" [] ∅
      {[ "FolderFlow:assets/fonts" := ["assets/fonts/old.ttf"; "assets/fonts/a.ttf"] ]} in
  let st := SimHost.init ["assets/fonts/sub/b.ttf"; "assets/fonts/a.ttf"; "assets/logo.png"] in
  ∃ tracked : list string,
    (∀ f, f ∈ tracked ↔ f ∈ ["assets/fonts/sub/b.ttf"; "assets/fonts/a.ttf"])
    ∧ NoDup tracked
    ∧ Project.flows (Project.executeStep CopyRunner.new flow (this, st)).2.1
      = <[ "FolderFlow:assets/fonts" := tracked ]> (Project.flows this).
Proof.
  intros flow this st.
  destruct (executeStep_tracks_current_resolution CopyRunner.new flow this st
              ["assets/fonts/sub/b.ttf"; "assets/fonts/a.ttf"] (Str "build/fonts")
              (State (SimHost.World ["build/fonts"; "assets/fonts/sub/b.ttf"; "assets/fonts/a.ttf"; "assets/logo.png"] None)
                     [console_log "Executing flow: FolderFlow:assets/fonts";
                      mkdir "build/fonts" true;
                      find "assets/fonts" None;
                      console_log "Found file: assets/fonts/sub/b.ttf";
                      console_log "Found file: assets/fonts/a.ttf"])
              eq_refl eq_refl) as (tracked & Hin & Hnd & Heq).
  exists tracked. split_and!; [done|done|].
  by rewrite Heq.
Defined.

(** C1 as stated fails for a flow whose identifier is the name of an
    inherited property: the step throws before anything is tracked and
    before the runner is run. *)
Lemma executeStep_inherited_id_throws :
  Project.executeStep CopyRunner.new
    (mkFlow "constructor" (ret (Arr ["assets/a.txt"], Str "build")))
    (Project.new "bao" [], SimHost.init ["assets/a.txt"])
  = (Err spread_TypeError,
     (Project.new "bao" [],
      State (SimHost.World ["assets/a.txt"] None)
            [console_log "Executing flow: constructor"])).
Proof. reflexivity. Qed.

Lemma executeStep_scalar_leaves_flows_witness :
  let flow : Flow SimHost.world :=
    FileFlow.new (FileFlow.Config "assets/favicon.ico" "build/favicon.ico") in
  let this :=
    Project.mk "bao" [] ∅ {[ "FolderFlow:assets/fonts" := ["assets/fonts/a.ttf"] ]} in
  let st := SimHost.init ["assets/favicon.ico"] in
  Project.flows (Project.executeStep CopyRunner.new flow (this, st)).2.1 = Project.flows this
  ∧ copies (trace (Project.executeStep CopyRunner.new flow (this, st)).2.2)
    = [cp (Str "assets/favicon.ico") (Str "build/favicon.ico")].
Proof.
  intros flow this st.
  destruct (executeStep_scalar_leaves_flows CopyRunner.new flow this st
              (Str "assets/favicon.ico") (Str "build/favicon.ico")
              (logged "Executing flow: FileFlow:assets/favicon.ico" st) eq_refl
              eq_refl) as (Heq & Hfl & _).
  split; [exact Hfl|]. rewrite Heq. reflexivity.
Defined.

(** C10 as stated fails in its conclusion: a flow that resolves to a
    single path is a key of the manifest that [build] writes when the
    manifest that [build] loaded had its identifier.  Here a FolderFlow
    without [expand]; the step tracks nothing, and the list of the
    manifest is saved again. *)
Lemma scalar_flow_id_is_persisted :
  (FolderFlow.execute (FolderFlow.Config "assets/images" "build/images" None None)
     (SimHost.init [])).1
  = Ok (Str "assets/images", Str "build/images")
  ∧ SimHost.manifest_file
      (world
         (Project.build
            (Project.new "bao"
               [Project.mkStep CopyRunner.new
                  (FolderFlow.new
                     (FolderFlow.Config "assets/images" "build/images" None None))],
             State
               (SimHost.World ["assets"; "assets/images"; "./.bao_tmp/build"]
                  (Some (Manifest "bao" ∅
                           {[ "FolderFlow:assets/images" := ["assets/images/old.png"] ]}
                           None "./.bao_tmp")))
               [])).2.2)
    = Some (Manifest "bao" ∅
              {[ "FolderFlow:assets/images" := ["assets/images/old.png"] ]}
              None "./.bao_tmp")
  ∧ (Project.build
       (Project.new "bao"
          [Project.mkStep CopyRunner.new
             (FolderFlow.new
                (FolderFlow.Config "assets/images" "build/images" None None))],
        State
          (SimHost.World ["assets"; "assets/images"; "./.bao_tmp/build"]
             (Some (Manifest "bao" ∅
                      {[ "FolderFlow:assets/images" := ["assets/images/old.png"] ]}
                      None "./.bao_tmp")))
          [])).1 = Ok ()
  ∧ last (trace
            (Project.build
               (Project.new "bao"
                  [Project.mkStep CopyRunner.new
                     (FolderFlow.new
                        (FolderFlow.Config "assets/images" "build/images" None None))],
                State
                  (SimHost.World ["assets"; "assets/images"; "./.bao_tmp/build"]
                     (Some (Manifest "bao" ∅
                              {[ "FolderFlow:assets/images" := ["assets/images/old.png"] ]}
                              None "./.bao_tmp")))
                  [])).2.2)
    = Some (file_write MANIFEST_FILE
              (Manifest "bao" ∅
                 {[ "FolderFlow:assets/images" := ["assets/images/old.png"] ]}
                 None "./.bao_tmp")).
Proof. split_and!; reflexivity. Qed.

(** *** The build *)

Section Build.
Context {W : Type} `{!Host W}.

Lemma keeps_steps_lift {A} (m : M (state W) A) : keeps_steps (Project.lift m).
Proof. intros this st. unfold Project.lift. by destruct (m st). Qed.

Lemma keeps_steps_bind {A B} (m : M (Project.t W * state W) A) (k : A → M _ B) :
  keeps_steps m → (∀ a, keeps_steps (k a)) → keeps_steps (bind m k).
Proof.
  intros Hm Hk this st. unfold bind. specialize (Hm this st).
  destruct (m (this, st)) as [[a|e] [this' st']]; simpl in *; [|done].
  by rewrite Hk.
Qed.

Lemma keeps_steps_try_catch {A} (m : M (Project.t W * state W) A) h :
  keeps_steps m → (∀ e, keeps_steps (h e)) → keeps_steps (try_catch m h).
Proof.
  intros Hm Hh this st. unfold try_catch. specialize (Hm this st).
  destruct (m (this, st)) as [[a|e] [this' st']]; simpl in *; [done|].
  by rewrite Hh.
Qed.

Lemma keeps_steps_loadFromManifest : keeps_steps (@Project.loadFromManifest W _).
Proof.
  unfold Project.loadFromManifest.
  apply keeps_steps_bind; [apply keeps_steps_lift|]. intros [].
  - apply keeps_steps_bind; [apply keeps_steps_lift|]. intros doc.
    apply keeps_steps_bind; by intros.
  - by intros.
Qed.

Lemma keeps_steps_stage : keeps_steps (@Project.stage W _).
Proof.
  unfold Project.stage.
  apply keeps_steps_bind; [by intros|]. intros this0.
  apply keeps_steps_bind; [apply keeps_steps_lift|]. intros _.
  apply keeps_steps_bind.
  { apply keeps_steps_try_catch.
    - apply keeps_steps_bind; [apply keeps_steps_loadFromManifest|]. intros _.
      apply keeps_steps_bind; [by intros|]. intros. apply keeps_steps_lift.
    - intros e. destruct (String.eqb _ _); [apply keeps_steps_lift|by intros]. }
  intros _.
  repeat (apply keeps_steps_bind; [apply keeps_steps_lift|]; intros _).
  apply keeps_steps_lift.
Qed.

(** C4: [build] runs the steps in the order of [this.steps], each one
    from the state the previous one left.  When the steps before some step
    have run and that step throws [e] (its flow or its runner), [build]
    ends with [e] in the very state the failing step left: no later step
    is entered (no flow resolved, no runner run), and nothing is published
    or saved. *)
Theorem build_fail_fast
    (this : Project.t W) st this0 st0 pre s post this1 st1 e this2 st2 :
  Project.steps this = pre ++ s :: post →
  Project.stage (this, st) = (Ok (), (this0, st0)) →
  Project.executeSteps pre (this0, st0) = (Ok (), (this1, st1)) →
  Project.executeStep (Project.runner s) (Project.flow s) (this1, st1) = (Err e, (this2, st2)) →
  Project.build (this, st) = (Err e, (this2, st2)).
Proof.
  intros Hsteps Hstage Hpre Hfail. unfold Project.build.
  rewrite (bind_ok _ _ _ _ _ Hstage).
  assert (Project.steps this0 = pre ++ s :: post) as Hsteps0.
  { rewrite <- Hsteps. pose proof (keeps_steps_stage this st) as H.
    by rewrite Hstage in H. }
  apply bind_err. unfold bind at 1. simpl. rewrite Hsteps0.
  unfold Project.executeSteps in *.
  by apply for_of_stops with (s1 := (this1, st1)).
Qed.

(** When every step returns, they have run one after the other in the
    order of the list. *)
Lemma executeSteps_in_order (l1 l2 : list (Project.Step W)) s :
  Project.executeSteps (l1 ++ l2) s
  = (Project.executeSteps l1;; Project.executeSteps l2) s.
Proof. apply for_of_app. Qed.
End Build.

Lemma build_fail_fast_witness :
  let missing : Project.Step SimHost.world :=
    Project.mkStep CopyRunner.new
      (FileFlow.new (FileFlow.Config "assets/missing.txt" "build/missing.txt")) in
  let favicon : Project.Step SimHost.world :=
    Project.mkStep CopyRunner.new
      (FileFlow.new (FileFlow.Config "assets/favicon.ico" "build/favicon.ico")) in
  let this := Project.new "bao" [missing; favicon] in
  let out := Project.build (this, SimHost.init ["assets"; "assets/favicon.ico"]) in
  out.1 = Err (SimHost.ENOENT "assets/missing.txt")
  ∧ copies (trace out.2.2)
    = [cp (Str "assets") (Str "./.bao_tmp/assets/");
       cp (Str "assets/missing.txt") (Str "build/missing.txt")].
Proof.
  intros missing favicon this out. unfold out.
  erewrite (build_fail_fast this _ _ _ [] missing [favicon]);
    [ | reflexivity | reflexivity | reflexivity | reflexivity].
  split; reflexivity.
Defined.

(** *** The missing manifest *)

Section MissingManifest.
Context {W : Type} `{!Host W}.

Lemma of_result_err {S A} (r : result A) (s : S) e s' :
  ManifestCodec.of_result r s = (Err e, s') → r = Err e.
Proof. destruct r; unfold ManifestCodec.of_result, ret, throw; by intros [= <- _]. Qed.

(** The errors of the constructors and of the registry lookup. *)
Lemma decode_step_error registry (s : step_doc) (st : state W) e st' :
  ManifestCodec.decode_step registry s st = (Err e, st') →
  message e ≠ "manifestFileNotfound".
Proof.
  unfold ManifestCodec.decode_step, bind.
  destruct (List.find _ (ManifestCodec.registry_runners registry)) as [[]|]; simpl.
  - destruct (List.find _ (ManifestCodec.registry_flows registry)) as [func|].
    + destruct (ManifestCodec.of_result _ st) as [[flow|e'] st1] eqn:Hnew; [done|].
      intros [= <- _]. apply of_result_err in Hnew.
      destruct func, (config (doc_flow s)) as [[]|]; simplify_eq/=; done.
    + intros [= <- _]. done.
  - intros [= <- _]. done.
Qed.

Lemma map_M_decode_error registry (l : list step_doc) : ∀ (st : state W) e st',
  ManifestCodec.map_M (ManifestCodec.decode_step registry) l st = (Err e, st') →
  message e ≠ "manifestFileNotfound".
Proof.
  induction l as [|s l IH]; intros st e st'; simpl; [done|].
  unfold bind at 1.
  destruct (ManifestCodec.decode_step registry s st) as [[y|e1] st1] eqn:Hs.
  - unfold bind at 1.
    destruct (ManifestCodec.map_M _ l st1) as [[ys|e2] st2] eqn:Hl; [done|].
    intros [= <- _]. by eapply IH.
  - intros [= <- _]. by eapply decode_step_error.
Qed.

(** Once the document has been read, no error of the decoder carries the
    message of the missing-manifest signal. *)
Lemma fromManifest_error registry doc (st : state W) e st' :
  ManifestCodec.fromManifest registry doc st = (Err e, st') →
  message e ≠ "manifestFileNotfound".
Proof.
  unfold ManifestCodec.fromManifest, bind.
  destruct (doc_steps doc) as [l|].
  - destruct (ManifestCodec.map_M _ l st) as [[steps|e1] st1] eqn:Hl; [done|].
    intros [= <- _]. by eapply map_M_decode_error.
  - intros [= <- _]. done.
Qed.

(** The two loaders, call by call. *)
Lemma Project_loadFromManifest_calls (this : Project.t W) (st : state W) :
  Project.loadFromManifest (this, st) =
  let '(b, w) := host_exists MANIFEST_FILE (world st) in
  let asked := called (file_exists MANIFEST_FILE) w st in
  if b
  then
    match host_json MANIFEST_FILE w with
    | (Ok doc, w1) =>
        (Ok (), (Project.set_flows (doc_flows doc)
                   (Project.set_dependencies (doc_dependencies doc) this),
                 called (file_json MANIFEST_FILE) w1 asked))
    | (Err e, w1) => (Err e, (this, called (file_json MANIFEST_FILE) w1 asked))
    end
  else (Err (Error "manifestFileNotfound"), (this, asked)).
Proof.
  unfold Project.loadFromManifest, bind, Project.lift, do_exists, do_json, call,
    Project.update_this, called. simpl.
  destruct (host_exists MANIFEST_FILE (world st)) as [[] w]; simpl; [|done].
  by destruct (host_json MANIFEST_FILE w) as [[doc|e] w1].
Qed.

Lemma ManifestCodec_loadFromManifest_calls registry (st : state W) :
  ManifestCodec.loadFromManifest registry st =
  let '(b, w) := host_exists MANIFEST_FILE (world st) in
  let asked := called (file_exists MANIFEST_FILE) w st in
  if b
  then
    match host_json MANIFEST_FILE w with
    | (Ok doc, w1) =>
        ManifestCodec.fromManifest registry doc (called (file_json MANIFEST_FILE) w1 asked)
    | (Err e, w1) => (Err e, called (file_json MANIFEST_FILE) w1 asked)
    end
  else (Err (Error "manifestFileNotfound"), asked).
Proof.
  unfold ManifestCodec.loadFromManifest, called. unfold_M.
  destruct (host_exists MANIFEST_FILE (world st)) as [[] w]; simpl; [|done].
  by destruct (host_json MANIFEST_FILE w) as [[doc|e] w1].
Qed.

(** C5: when the manifest file does not exist, [loadFromManifest] (the
    method of the current revision and the registry-based one) throws
    [Error('manifestFileNotfound')] after the one call that asks whether
    the file exists, and nothing else happens.  The signal is told apart by
    its message: a failure of [loadFromManifest] with this message means
    that the file did not exist, unless the host's own reading of the file
    threw it; the errors of the decoder (unknown class name, constructor
    failure) carry other messages. *)
Theorem loadFromManifest_not_found_signal
    (this : Project.t W) (registry : ManifestCodec.Registry) (st : state W) :
  let asked := called (file_exists MANIFEST_FILE) (host_exists MANIFEST_FILE (world st)).2 st in
  ((host_exists MANIFEST_FILE (world st)).1 = false →
     Project.loadFromManifest (this, st) = (Err (Error "manifestFileNotfound"), (this, asked))
     ∧ ManifestCodec.loadFromManifest registry st = (Err (Error "manifestFileNotfound"), asked))
  ∧ (∀ e out, ManifestCodec.loadFromManifest registry st = (Err e, out) →
       message e = "manifestFileNotfound" →
       (host_exists MANIFEST_FILE (world st)).1 = false
       ∨ (host_json MANIFEST_FILE (world asked)).1 = Err e)
  ∧ (∀ e out, Project.loadFromManifest (this, st) = (Err e, out) →
       message e = "manifestFileNotfound" →
       (host_exists MANIFEST_FILE (world st)).1 = false
       ∨ (host_json MANIFEST_FILE (world asked)).1 = Err e)
  ∧ (∀ className list_name,
       message (ManifestCodec.not_found className list_name) ≠ "manifestFileNotfound").
Proof.
  intros asked. subst asked.
  rewrite Project_loadFromManifest_calls, ManifestCodec_loadFromManifest_calls.
  destruct (host_exists MANIFEST_FILE (world st)) as [b w] eqn:Hex. simpl.
  split_and!.
  - by intros ->.
  - intros e out. destruct b; [|by left]. intros Hload Hmsg. right.
    destruct (host_json MANIFEST_FILE w) as [[doc|e1] w1] eqn:Hjson; simpl.
    + by apply fromManifest_error in Hload.
    + by injection Hload as <- _.
  - intros e out. destruct b; [|by left]. intros Hload Hmsg. right.
    destruct (host_json MANIFEST_FILE w) as [[doc|e1] w1] eqn:Hjson; simpl.
    + done.
    + by injection Hload as <- _.
  - done.
Qed.
End MissingManifest.

Lemma loadFromManifest_not_found_signal_witness :
  let this : Project.t SimHost.world := Project.new "bao" [] in
  let registry := ManifestCodec.mkRegistry [ManifestCodec.CopyRunnerClass]
                    [ManifestCodec.FolderFlowClass; ManifestCodec.FileFlowClass] in
  let st := SimHost.init ["assets"] in
  (host_exists MANIFEST_FILE (world st)).1 = false
  ∧ (Project.loadFromManifest (this, st)).1 = Err (Error "manifestFileNotfound")
  ∧ (ManifestCodec.loadFromManifest registry st).1 = Err (Error "manifestFileNotfound").
Proof.
  intros this registry st.
  destruct (proj1 (@loadFromManifest_not_found_signal _ SimHost.host this registry st) eq_refl)
    as [-> ->].
  split_and!; reflexivity.
Defined.

(** *** Flow identifiers *)

Lemma append_length (s t : string) :
  String.length (s +:+ t) = (String.length s + String.length t)%nat.
Proof. induction s as [|a s IH]; simpl; [done|]. by rewrite IH. Qed.

Lemma append_cancel_r (t : string) : ∀ s1 s2 : string, s1 +:+ t = s2 +:+ t → s1 = s2.
Proof.
  induction s1 as [|a s1 IH]; intros [|c s2] Heq; simpl in *.
  - done.
  - apply (f_equal String.length) in Heq. simpl in Heq.
    rewrite (append_length s2 t) in Heq. change ("" +:+ t) with t in Heq. lia.
  - apply (f_equal String.length) in Heq. simpl in Heq.
    rewrite (append_length s1 t) in Heq. change ("" +:+ t) with t in Heq. lia.
  - injection Heq as -> Heq. f_equal. by apply IH.
Qed.

Lemma append_cancel_l (p s1 s2 : string) : p +:+ s1 = p +:+ s2 → s1 = s2.
Proof.
  induction p as [|a p IH]; intros Heq; [exact Heq|].
  injection Heq as Heq. by apply IH.
Qed.

Lemma has_hash_cons c s : has_hash (String c s) = false → has_hash s = false.
Proof. simpl. by intros [_ Hs]%orb_false_iff. Qed.

(** A path without ["#"] ends where the first ["#"] stands. *)
Lemma hash_splits (e1 e2 : string) : ∀ s1 s2 : string,
  has_hash s1 = false → has_hash s2 = false →
  s1 +:+ "#" +:+ e1 = s2 +:+ "#" +:+ e2 → s1 = s2.
Proof.
  induction s1 as [|a s1 IH]; intros [|c s2] H1 H2 Heq.
  - done.
  - injection Heq as <- _. by vm_compute in H2.
  - injection Heq as -> _. by vm_compute in H1.
  - injection Heq as -> Heq. f_equal.
    apply has_hash_cons in H1. apply has_hash_cons in H2.
    by apply IH.
Qed.

Lemma hash_occurs (e : string) : ∀ s1 s2 : string,
  has_hash s2 = false → s1 +:+ "#" +:+ e ≠ s2.
Proof.
  induction s1 as [|a s1 IH]; intros [|c s2] H2 Heq; try done.
  - injection Heq as <- _. by vm_compute in H2.
  - injection Heq as -> Heq. apply has_hash_cons in H2. by eapply IH.
Qed.

Lemma FolderFlow_id_extension (c : FolderFlow.config) :
  FolderFlow.id c =
  match extension_of (Folder c) with
  | Some ext => "FolderFlow:" +:+ (FolderFlow.source c +:+ "#" +:+ ext)
  | None => "FolderFlow:" +:+ FolderFlow.source c
  end.
Proof.
  unfold FolderFlow.id, extension_of.
  destruct (FolderFlow.extension c) as [ext|]; [|done]. by destruct (str_truthy ext).
Qed.

(** The identifier of the [Flow] object is the one computed here. *)
Lemma id_to_flow {W} `{!Host W} (f : builtin_flow) : id (to_flow (W:=W) f) = id_of f.
Proof. by destruct f. Qed.

(** C6, as the code has it: the identifier of a flow is a function of
    its variant tag, its source path and its extension (an empty extension
    counts as none), so that configuring the same flow twice gives the same
    identifier; flows with different variant tags have different
    identifiers; flows with different source paths have different
    identifiers provided that one of them is not a FolderFlow, or both have
    the same extension, or neither source path contains ["#"]. *)
Theorem flow_id_deterministic_and_distinct (f1 f2 : builtin_flow) :
  (tag f1 = tag f2 → source_of f1 = source_of f2 → extension_of f1 = extension_of f2 →
     id_of f1 = id_of f2)
  ∧ (tag f1 ≠ tag f2 → id_of f1 ≠ id_of f2)
  ∧ (source_of f1 ≠ source_of f2 →
       tag f1 ≠ "FolderFlow" ∨ tag f2 ≠ "FolderFlow"
       ∨ extension_of f1 = extension_of f2
       ∨ (has_hash (source_of f1) = false ∧ has_hash (source_of f2) = false) →
       id_of f1 ≠ id_of f2).
Proof.
  split_and!.
  - intros Htag Hsrc Hext.
    destruct f1 as [c1|c1|p1], f2 as [c2|c2|p2]; try discriminate Htag;
      simpl in Hsrc; simpl id_of.
    + rewrite !FolderFlow_id_extension, Hext, Hsrc. done.
    + unfold FileFlow.id. by rewrite Hsrc.
    + by rewrite Hsrc.
  - intros Htag.
    destruct f1 as [c1|c1|p1], f2 as [c2|c2|p2]; try done; simpl;
      rewrite ?FolderFlow_id_extension; unfold FileFlow.id, VoidFileFlow.id;
      repeat case_match; simpl; discriminate.
  - intros Hsrc Hside.
    destruct f1 as [c1|c1|p1], f2 as [c2|c2|p2]; simpl in Hsrc |- *;
      rewrite ?FolderFlow_id_extension; unfold FileFlow.id, VoidFileFlow.id;
      try (repeat case_match; simpl; discriminate);
      try (simpl; intros [=]; done).
    destruct Hside as [Ht|[Ht|[Hext|[H1 H2]]]]; [done|done| |].
    + rewrite Hext.
      destruct (extension_of (Folder c2)) as [ext|]; intros Heq%append_cancel_l.
      * by apply append_cancel_r in Heq.
      * done.
    + simpl in H1, H2.
      destruct (extension_of (Folder c1)) as [e1|], (extension_of (Folder c2)) as [e2|];
        intros Heq%append_cancel_l.
      * by apply hash_splits in Heq.
      * by apply hash_occurs in Heq.
      * symmetry in Heq. by apply hash_occurs in Heq.
      * done.
Qed.

Lemma flow_id_deterministic_and_distinct_witness :
  id_of (Folder (FolderFlow.Config "assets/fonts" "build/fonts" (Some true) (Some "ttf")))
  ≠ id_of (Folder (FolderFlow.Config "assets/images" "build/images" None None))
  ∧ id_of (Folder (FolderFlow.Config "assets/fonts" "build/fonts" None None))
    ≠ id_of (File (FileFlow.Config "assets/fonts" "build/fonts")).
Proof.
  split.
  - apply (proj2 (proj2 (flow_id_deterministic_and_distinct
             (Folder (FolderFlow.Config "assets/fonts" "build/fonts" (Some true) (Some "ttf")))
             (Folder (FolderFlow.Config "assets/images" "build/images" None None))))).
    + simpl. discriminate.
    + right. right. right. split; reflexivity.
  - apply (proj1 (proj2 (flow_id_deterministic_and_distinct
             (Folder (FolderFlow.Config "assets/fonts" "build/fonts" None None))
             (File (FileFlow.Config "assets/fonts" "build/fonts"))))).
    simpl. discriminate.
Defined.

(** C6 as stated fails: two FolderFlows with different source paths and
    the same identifier. *)
Lemma FolderFlow_id_collision :
  FolderFlow.source (FolderFlow.Config "assets/a#b" "build/x" None None)
  ≠ FolderFlow.source (FolderFlow.Config "assets/a" "build/x" None (Some "b"))
  ∧ FolderFlow.id (FolderFlow.Config "assets/a#b" "build/x" None None)
    = FolderFlow.id (FolderFlow.Config "assets/a" "build/x" None (Some "b")).
Proof. split; [simpl; discriminate | reflexivity]. Qed.

(** In the oldest revision every [VoidFlow] had the same identifier. *)
Lemma Legacy_VoidFlow_id_constant (p q : string) :
  Legacy.VoidFlow_id p = Legacy.VoidFlow_id q.
Proof. reflexivity. Qed.

(** *** The manifest round trip *)

Section RoundTrip.
Context {W : Type} `{!Host W}.

Lemma find_runner_class (func : ManifestCodec.RunnerClass) l :
  func ∈ l →
  List.find (λ f, String.eqb (ManifestCodec.runner_class_name f)
                             (ManifestCodec.runner_class_name func)) l = Some func.
Proof.
  induction l as [|x l IH]; intros Hin; [by apply elem_of_nil in Hin|].
  simpl. by destruct x, func.
Qed.

Lemma find_flow_class (func : ManifestCodec.FlowClass) l :
  func ∈ l →
  List.find (λ f, String.eqb (ManifestCodec.flow_class_name f)
                             (ManifestCodec.flow_class_name func)) l = Some func.
Proof.
  induction l as [|x l IH]; intros Hin; [by apply elem_of_nil in Hin|].
  apply elem_of_cons in Hin as [<-|Hin].
  - simpl. by rewrite String.eqb_refl.
  - simpl. destruct (String.eqb _ _) eqn:E; [|by apply IH].
    f_equal. by destruct x, func.
Qed.

(** A step whose flow keeps its constructor argument in [config] is
    decoded to itself. *)
Lemma decode_encode_step registry (s : ManifestCodec.Step) (st : state W) c :
  ManifestCodec.runner_class_of (ManifestCodec.runner s) ∈ ManifestCodec.registry_runners registry →
  ManifestCodec.flow_class_of (ManifestCodec.flow s) ∈ ManifestCodec.registry_flows registry →
  ManifestCodec.flow_config (ManifestCodec.flow s) = Some c →
  c ≠ JNull →
  ManifestCodec.decode_step registry (ManifestCodec.encode_step s) st = (Ok s, st).
Proof.
  intros Hr Hf Hc Hnull. destruct s as [r f].
  unfold ManifestCodec.decode_step, ManifestCodec.encode_step. simpl in *.
  rewrite (find_runner_class _ _ Hr), (find_flow_class _ _ Hf).
  destruct r. unfold bind. simpl.
  destruct f as [c'|c'|p]; simpl in *; simplify_eq; by destruct c.
Qed.

(** The round trip for the flows that have a [config]: the document of
    a project whose flows are FolderFlows and FileFlows is decoded, with a
    registry that has the classes used, to the same project. *)
Lemma roundtrip_flows_with_config registry (this : ManifestCodec.t) (st : state W) :
  Forall (λ s,
      ManifestCodec.runner_class_of (ManifestCodec.runner s)
        ∈ ManifestCodec.registry_runners registry
      ∧ ManifestCodec.flow_class_of (ManifestCodec.flow s)
        ∈ ManifestCodec.registry_flows registry
      ∧ ∃ c, ManifestCodec.flow_config (ManifestCodec.flow s) = Some c ∧ c ≠ JNull)
    (ManifestCodec.steps this) →
  ManifestCodec.fromManifest registry (ManifestCodec.toJSON this) st = (Ok this, st).
Proof.
  intros Hall. destruct this as [name deps flows steps]. simpl in Hall.
  unfold ManifestCodec.fromManifest, ManifestCodec.toJSON. simpl.
  assert (ManifestCodec.map_M (ManifestCodec.decode_step registry)
            (map ManifestCodec.encode_step steps) st = (Ok steps, st)) as Hsteps.
  { induction Hall as [|s l (Hr & Hf & c & Hc & Hnull) _ IH]; [done|].
    simpl. unfold bind at 1. rewrite (decode_encode_step _ _ _ c); [|done..].
    unfold bind at 1. by rewrite IH. }
  unfold bind. rewrite Hsteps. unfold ret, ManifestCodec.new. simpl.
  do 2 f_equal. unfold Array_from. f_equal. apply map_fmap_id.
Qed.
End RoundTrip.

(** C2 on a project with a [VoidFileFlow] step, saved and loaded again
    with a registry that has all the classes used: the step comes back
    without its path.  [toJSON] finds no [config] on a [VoidFileFlow]
    (it keeps its argument in [filePath]), so that the document has no
    [config] for the flow and [loadFromManifest] calls the constructor
    with [undefined]. *)
Theorem roundtrip_loses_VoidFileFlow_path :
  ManifestCodec.toJSON
    (ManifestCodec.new "bao"
       (Some (ManifestCodec.mkConfig None None None
                (Some [ManifestCodec.mkStep ManifestCodec.CopyRunner
                         (ManifestCodec.VoidFileFlow (Some (JStr "assets/robots.txt")))]))))
  = Manifest "bao" ∅ ∅
      (Some [StepDoc (ClassDoc "CopyRunner" None) (ClassDoc "VoidFileFlow" None)])
      "./.bao_tmp"
  ∧ ((ManifestCodec.saveToManifest
        (ManifestCodec.new "bao"
           (Some (ManifestCodec.mkConfig None None None
                    (Some [ManifestCodec.mkStep ManifestCodec.CopyRunner
                             (ManifestCodec.VoidFileFlow (Some (JStr "assets/robots.txt")))]))));;
      ManifestCodec.loadFromManifest
        (ManifestCodec.mkRegistry
           [ManifestCodec.CopyRunnerClass]
           [ManifestCodec.FolderFlowClass; ManifestCodec.FileFlowClass;
            ManifestCodec.VoidFileFlowClass]))
       (SimHost.init [])).1
    = Ok (ManifestCodec.mk "bao" ∅ ∅
            [ManifestCodec.mkStep ManifestCodec.CopyRunner (ManifestCodec.VoidFileFlow None)])
  ∧ ManifestCodec.VoidFileFlow None
    ≠ ManifestCodec.VoidFileFlow (Some (JStr "assets/robots.txt")).
Proof. split_and!; [reflexivity | reflexivity | discriminate]. Qed.

(** The same project with a FileFlow in the place of the VoidFileFlow
    comes back as it was. *)
Lemma roundtrip_keeps_FileFlow :
  ((ManifestCodec.saveToManifest
      (ManifestCodec.mk "bao" {[ "left-pad" := "1.3.0" ]}
         {[ "FileFlow:assets/robots.txt" := ["assets/robots.txt"] ]}
         [ManifestCodec.mkStep ManifestCodec.CopyRunner
            (ManifestCodec.FileFlow
               (JObj [("source", JStr "assets/robots.txt"); ("dest", JStr "build/robots.txt")]))]);;
    ManifestCodec.loadFromManifest
      (ManifestCodec.mkRegistry [ManifestCodec.CopyRunnerClass] [ManifestCodec.FileFlowClass]))
     (SimHost.init [])).1
  = Ok (ManifestCodec.mk "bao" {[ "left-pad" := "1.3.0" ]}
          {[ "FileFlow:assets/robots.txt" := ["assets/robots.txt"] ]}
          [ManifestCodec.mkStep ManifestCodec.CopyRunner
             (ManifestCodec.FileFlow
                (JObj [("source", JStr "assets/robots.txt"); ("dest", JStr "build/robots.txt")]))]).
Proof. reflexivity. Qed.

(** ** Further properties of the code *)

(** *** The order of the tracked files *)

Lemma fold_Set_add_prefix l : ∀ s, s `prefix_of` fold_left Set_add l s.
Proof.
  induction l as [|x l IH]; intros s; simpl; [done|].
  etrans; [|apply IH]. unfold Set_add.
  destruct (includes s x); [done|]. by apply prefix_app_r.
Qed.

Lemma fold_Set_add_absorb l : ∀ s, (∀ x, x ∈ l → x ∈ s) → fold_left Set_add l s = s.
Proof.
  induction l as [|x l IH]; intros s Hsub; simpl; [done|].
  assert (Set_add s x = s) as ->.
  { unfold Set_add. assert (includes s x = true) as ->; [|done].
    apply includes_true, Hsub, list_elem_of_here. }
  apply IH. intros y Hy. by apply Hsub, list_elem_of_further.
Qed.

Lemma fold_Set_add_fresh l : ∀ s, NoDup (s ++ l) → fold_left Set_add l s = s ++ l.
Proof.
  induction l as [|x l IH]; intros s Hnd; simpl; [by rewrite app_nil_r|].
  assert (Set_add s x = s ++ [x]) as ->.
  { unfold Set_add. destruct (includes s x) eqn:E; [|done].
    apply includes_true in E. apply NoDup_app in Hnd as (_ & Hdisj & _).
    destruct (Hdisj x E). apply list_elem_of_here. }
  rewrite IH; rewrite <- app_assoc; done.
Qed.

Lemma new_Set_NoDup_id l : NoDup l → new_Set l = l.
Proof. intros Hnd. unfold new_Set. by rewrite fold_Set_add_fresh. Qed.

Lemma new_Set_app l1 l2 : new_Set (l1 ++ l2) = fold_left Set_add l2 (new_Set l1).
Proof. unfold new_Set. apply fold_left_app. Qed.

Lemma List_filter_all (p : string → bool) l :
  (∀ x, x ∈ l → p x = true) → List.filter p l = l.
Proof.
  induction l as [|x l IH]; intros Hall; simpl; [done|].
  rewrite (Hall x); [|apply list_elem_of_here].
  f_equal. apply IH. intros y Hy. by apply Hall, list_elem_of_further.
Qed.

(** X1: resolving a flow to the same files again leaves the tracked
    files as they are, order included: [merge] applied to its own result
    and the same resolution gives that result back. *)
Theorem merge_idempotent (tracked : option (list string)) (files : list string) :
  Project.merge (Some (Project.merge tracked files)) files = Project.merge tracked files.
Proof.
  set (m := Project.merge tracked files).
  assert (NoDup m) as Hnd by apply new_Set_NoDup.
  assert (∀ y, y ∈ m ↔ y ∈ files) as Hm by (intros y; apply merge_spec).
  unfold Project.merge at 1. unfold Array_from. simpl.
  rewrite List.filter_app, new_Set_app.
  rewrite (List_filter_all _ m).
  - rewrite (new_Set_NoDup_id m Hnd). apply fold_Set_add_absorb.
    intros x [Hx _]%elem_of_List_filter. by apply Hm.
  - intros x Hx. by apply includes_true, Hm.
Qed.

(** X2: when nothing is tracked yet for a flow and the resolution has no
    duplicates, the tracked files, which are what the runner is run on,
    are the resolved files in the order of the resolution. *)
Theorem merge_first_resolution (files : list string) :
  NoDup files → Project.merge None files = files.
Proof.
  intros Hnd. unfold Project.merge, Array_from. simpl.
  rewrite List_filter_all; [by apply new_Set_NoDup_id|].
  intros x Hx. by apply includes_true.
Qed.

Lemma merge_first_resolution_witness :
  Project.merge None ["assets/fonts/a.ttf"; "assets/fonts/sub/b.ttf"]
  = ["assets/fonts/a.ttf"; "assets/fonts/sub/b.ttf"].
Proof.
  apply merge_first_resolution.
  apply NoDup_cons. split; [|apply NoDup_singleton].
  intros Hin%list_elem_of_singleton. discriminate.
Defined.

(** X3: the files that were tracked before and are resolved again come
    first, in the order they had (each at its first occurrence); the
    files that are new follow them. *)
Theorem merge_survivors_first (tracked : option (list string)) (files : list string) :
  new_Set (List.filter (includes files) (default [] tracked))
    `prefix_of` Project.merge tracked files.
Proof.
  unfold Project.merge, Array_from.
  rewrite List.filter_app, new_Set_app. apply fold_Set_add_prefix.
Qed.

(** X4: in the oldest revision, [executeRunner] never dropped a file: the
    files tracked after a resolution are the files tracked before together
    with the resolved ones, each of them once. *)
Theorem Legacy_merge_union_NoDup (tracked : option (list string)) (files : list string) :
  (∀ y, y ∈ Legacy.merge tracked files ↔ y ∈ default [] tracked ∨ y ∈ files)
  ∧ NoDup (Legacy.merge tracked files).
Proof.
  split.
  - intros y. unfold Legacy.merge, Array_from.
    rewrite fold_Set_add_spec, new_Set_spec, elem_of_List_filter.
    rewrite negb_true_iff, <- not_true_iff_false, includes_true.
    destruct (decide (y ∈ files)); tauto.
  - unfold Legacy.merge. apply fold_Set_add_NoDup, new_Set_NoDup.
Qed.

(** *** The copy runner, case by case *)

Section CopyRunnerCases.
Context {W : Type} `{!Host W}.

Lemma copy_only_ret {A} (a : A) : copy_only (ret (S:=state W) a).
Proof.
  intros st. split; [|done]. exists []. by rewrite app_nil_r.
Qed.

Lemma copy_only_log line : copy_only (emit (console_log line)).
Proof.
  intros st. split; [|done]. exists [console_log line]. split; [done|].
  by apply Forall_singleton.
Qed.

Lemma copy_only_cp s d : copy_only (do_cp s d).
Proof.
  intros st. unfold do_cp, call.
  destruct (host_cp s d (world st)) as [r w] eqn:Hcp. simpl. split.
  - exists [cp s d]. split; [done|]. by apply Forall_singleton.
  - intros e ->. exists s, d, (world st). by rewrite Hcp.
Qed.

Lemma copy_only_bind {A B} (m : M (state W) A) (k : A → M (state W) B) :
  copy_only m → (∀ a, copy_only (k a)) → copy_only (bind m k).
Proof.
  intros Hm Hk st. destruct (Hm st) as [(tr & Htr & Hall) Herr]. unfold bind.
  destruct (m st) as [[a|e] st1]; simpl in *.
  - destruct (Hk a st1) as [(tr' & Htr' & Hall') Herr']. split; [|done].
    exists (tr ++ tr'). rewrite Htr', Htr, <- app_assoc. split; [done|].
    by apply Forall_app.
  - split; [by exists tr|]. intros e' [= <-]. by apply Herr.
Qed.

Lemma copy_only_for_of {A} (f : A → M (state W) ()) l :
  (∀ x, copy_only (f x)) → copy_only (for_of l f).
Proof.
  intros Hf. induction l as [|x l IH]; simpl.
  - apply copy_only_ret.
  - apply copy_only_bind; [apply Hf|]. by intros _.
Qed.

Lemma copy_only_copy_from rest dest : ∀ i, copy_only (CopyRunner.copy_from i rest dest).
Proof.
  induction rest as [|s rest IH]; intros i; simpl.
  - apply copy_only_ret.
  - apply copy_only_bind; [apply copy_only_log|]. intros _.
    apply copy_only_bind; [apply copy_only_cp|]. intros _. apply IH.
Qed.

Lemma copy_only_run source dest : copy_only (CopyRunner.run source dest).
Proof.
  unfold CopyRunner.run.
  destruct (negb (truthy source) || negb (truthy dest)); [apply copy_only_log|].
  destruct source as [|s|source], dest as [|d|dest];
    first
      [ apply copy_only_copy_from
      | apply copy_only_for_of; intros src; unfold CopyRunner.copy_into;
        apply copy_only_bind; [apply copy_only_log|]; intros _; apply copy_only_cp
      | apply copy_only_bind; [apply copy_only_log|]; intros _; apply copy_only_cp
      | apply copy_only_bind; [apply copy_only_log|]; intros _;
        apply copy_only_bind; [apply copy_only_log|]; intros _; apply copy_only_cp ].
Qed.

(** X5: whatever its arguments, [CopyRunner.run] touches the host only
    through copy calls and the console: the trace it leaves is the one it
    started from followed by [console.log] lines and copy calls (no
    directory is created, nothing is removed, searched or written). *)
Theorem run_only_logs_and_copies (source dest : selector) (st : state W) :
  ∃ tr, trace (CopyRunner.run source dest st).2 = trace st ++ tr
        ∧ Forall (λ ev, is_log_or_cp ev = true) tr.
Proof. apply copy_only_run. Qed.

(** X6: [CopyRunner.run] throws nothing of its own, whatever the shapes
    of its arguments: an error it ends with is the error of a copy call. *)
Theorem run_error_is_copy_error (source dest : selector) (st : state W) e st' :
  CopyRunner.run source dest st = (Err e, st') →
  ∃ s d w, (host_cp s d w).1 = Err e.
Proof.
  intros Hrun. destruct (copy_only_run source dest st) as [_ Herr].
  apply Herr. by rewrite Hrun.
Qed.

(** X7: an empty list as source is a no-op for every destination: the run
    returns normally, the world is the one it started from and no copy
    call is made. *)
Theorem run_empty_list_no_op (dest : selector) (st : state W) :
  (CopyRunner.run (Arr []) dest st).1 = Ok ()
  ∧ world (CopyRunner.run (Arr []) dest st).2 = world st
  ∧ copies (trace (CopyRunner.run (Arr []) dest st).2) = copies (trace st).
Proof.
  destruct dest as [|d|dest]; unfold CopyRunner.run; simpl.
  - split_and!; [done|done|]. rewrite copies_app. simpl. apply app_nil_r.
  - destruct (str_truthy d); simpl.
    + done.
    + split_and!; [done|done|]. rewrite copies_app. simpl. apply app_nil_r.
  - done.
Qed.





(** X9: for a non-empty single source and a non-empty single destination,
    [CopyRunner.run] logs the copy and makes exactly one copy call, from
    the source to the destination; its outcome is the outcome of that
    call. *)
Theorem run_scalar_to_scalar (source dest : string) (st : state W) :
  str_truthy source = true →
  str_truthy dest = true →
  let answer := host_cp (Str source) (Str dest) (world st) in
  let tr := trace st ++ [console_log ("Copying from " +:+ source +:+ " to " +:+ dest);
                         cp (Str source) (Str dest)] in
  CopyRunner.run (Str source) (Str dest) st = (answer.1, State answer.2 tr)
  ∧ copies tr = copies (trace st) ++ [cp (Str source) (Str dest)].
Proof.
  intros Hs Hd answer tr. split.
  - unfold CopyRunner.run. simpl. rewrite Hs, Hd. simpl. unfold_M.
    fold answer. destruct answer as [r w]. simpl.
    unfold tr. by rewrite <- app_assoc.
  - unfold tr. by rewrite copies_app.
Qed.
End CopyRunnerCases.


Lemma run_scalar_to_scalar_witness :
  str_truthy "assets/favicon.ico" = true
  ∧ str_truthy "build/favicon.ico" = true
  ∧ (CopyRunner.run (Str "assets/favicon.ico") (Str "build/favicon.ico")
       (SimHost.init ["assets/favicon.ico"])).1 = Ok ().
Proof.
  split_and!; [reflexivity|reflexivity|].
  destruct (@run_scalar_to_scalar _ SimHost.host "assets/favicon.ico" "build/favicon.ico"
              (SimHost.init ["assets/favicon.ico"]) eq_refl eq_refl) as [-> _].
  reflexivity.
Defined.

Lemma run_error_is_copy_error_witness :
  ∃ s d w, (host_cp s d w).1 = Err (SimHost.ENOENT "assets/missing.txt").
Proof.
  apply (@run_error_is_copy_error _ SimHost.host
           (Str "assets/missing.txt") (Str "build/missing.txt") (SimHost.init [])
           (SimHost.ENOENT "assets/missing.txt")
           (State (SimHost.World [] None)
                  [console_log "Copying from assets/missing.txt to build/missing.txt";
                   cp (Str "assets/missing.txt") (Str "build/missing.txt")])).
  reflexivity.
Defined.

(** *** The resolution of a folder *)

Section FolderFlowProperties.
Context {W : Type} `{!Host W}.

Lemma for_of_log (f : string → string) files : ∀ st : state W,
  for_of files (λ line, emit (console_log (f line))) st
  = (Ok (), State (world st) (trace st ++ map (λ line, console_log (f line)) files)).
Proof.
  induction files as [|x files IH]; intros st; simpl.
  - unfold ret. rewrite app_nil_r. by destruct st.
  - unfold bind, emit. simpl. rewrite IH. simpl. by rewrite <- app_assoc.
Qed.

(** [FolderFlow.execute], call by call. *)
Lemma FolderFlow_execute_calls (c : FolderFlow.config) (st : state W) :
  FolderFlow.execute c st =
  let made := host_mkdir (FolderFlow.dest c) true (world st) in
  let st1 := called (mkdir (FolderFlow.dest c) true) made.2 st in
  match made.1 with
  | Err e => (Err e, st1)
  | Ok _ =>
      if default false (FolderFlow.expand c)
      then
        let found := host_find (FolderFlow.source c) (find_pattern c) made.2 in
        let st2 := called (find (FolderFlow.source c) (find_pattern c)) found.2 st1 in
        match found.1 with
        | Err e => (Err e, st2)
        | Ok lines =>
            let files := List.filter str_truthy lines in
            (Ok (Arr files, Str (FolderFlow.dest c)),
             State (world st2)
                   (trace st2 ++ map (λ line, console_log ("Found file: " +:+ line)) files))
        end
      else (Ok (Str (FolderFlow.source c), Str (FolderFlow.dest c)), st1)
  end.
Proof.
  unfold FolderFlow.execute, find_pattern, called. unfold bind at 1.
  unfold do_mkdir at 1, call at 1.
  destruct (host_mkdir (FolderFlow.dest c) true (world st)) as [[[]|e] w]; simpl; [|done].
  destruct (default false (FolderFlow.expand c)); simpl; [|done].
  unfold bind at 1.
  destruct (opt_truthy (FolderFlow.extension c)); simpl; unfold do_find, call; simpl.
  - destruct (host_find _ _ w) as [[lines|e] w1]; simpl; [|done].
    unfold bind. by rewrite for_of_log.
  - destruct (host_find _ _ w) as [[lines|e] w1]; simpl; [|done].
    unfold bind. by rewrite for_of_log.
Qed.

Lemma List_filter_truthy_nonempty lines :
  Forall (λ f, f ≠ "") (List.filter str_truthy lines).
Proof.
  apply Forall_forall. intros f [_ Hf]%elem_of_List_filter. by intros ->.
Qed.

(** X10: what a successful resolution of a folder returns.  The
    destination is the configured one.  Without [expand] the source is the
    configured folder path.  With [expand] it is the list of the lines that
    [find] printed for the configured source (with the pattern
    [*.extension] when an extension is configured), in that order and
    without the empty lines. *)
Theorem FolderFlow_execute_result (c : FolderFlow.config) (st : state W) src d st' :
  FolderFlow.execute c st = (Ok (src, d), st') →
  d = Str (FolderFlow.dest c)
  ∧ if default false (FolderFlow.expand c)
    then ∃ lines,
           (host_find (FolderFlow.source c) (find_pattern c)
                      (host_mkdir (FolderFlow.dest c) true (world st)).2).1 = Ok lines
           ∧ src = Arr (List.filter str_truthy lines)
           ∧ Forall (λ f, f ≠ "") (List.filter str_truthy lines)
    else src = Str (FolderFlow.source c).
Proof.
  rewrite FolderFlow_execute_calls. cbv zeta.
  destruct (host_mkdir (FolderFlow.dest c) true (world st)) as [[[]|e] w]; simpl; [|done].
  destruct (default false (FolderFlow.expand c)).
  - destruct (host_find _ _ w) as [[lines|e] w1]; simpl; [|done].
    intros [= <- <- _]. split; [done|]. exists lines. split_and!; [done|done|].
    apply List_filter_truthy_nonempty.
  - by intros [= <- <- _].
Qed.

(** X11: the resolution of a folder first creates the destination
    directory (recursively), also without [expand] and also when it fails
    afterwards.  The only other host calls it makes are the one search,
    for the configured source and pattern, and [console.log] lines after
    it: it makes no other call, and in particular it never copies. *)
Theorem FolderFlow_execute_footprint (c : FolderFlow.config) (st : state W) :
  ∃ tl, trace (FolderFlow.execute c st).2 = trace st ++ mkdir (FolderFlow.dest c) true :: tl
        ∧ (tl = []
           ∨ ∃ logs, tl = find (FolderFlow.source c) (find_pattern c) :: logs
                     ∧ Forall (λ ev, is_console_log ev = true) logs)
        ∧ copies (trace (FolderFlow.execute c st).2) = copies (trace st).
Proof.
  rewrite FolderFlow_execute_calls. cbv zeta.
  destruct (host_mkdir (FolderFlow.dest c) true (world st)) as [[[]|e] w]; simpl.
  - destruct (default false (FolderFlow.expand c)).
    + destruct (host_find _ _ w) as [[lines|e] w1]; simpl.
      * eexists (find _ _ :: map _ _). rewrite <- !app_assoc. simpl. split_and!; [done| |].
        -- right. eexists. split; [done|]. apply Forall_forall.
           by intros ev (line & -> & _)%list_elem_of_fmap.
        -- rewrite !copies_app. simpl.
           assert (copies (map (λ line, console_log ("Found file: " +:+ line))
                             (List.filter str_truthy lines)) = []) as ->.
           { induction (List.filter str_truthy lines); [done|]. simpl. done. }
           by rewrite !app_nil_r.
      * exists [find (FolderFlow.source c) (find_pattern c)].
        rewrite <- !app_assoc. simpl. split_and!; [done| |].
        -- right. by exists [].
        -- simpl. rewrite ?copies_app. simpl. by rewrite ?app_nil_r.
    + exists []. split_and!; [done|by left|]. simpl. rewrite ?copies_app. simpl. by rewrite ?app_nil_r.
  - exists []. split_and!; [done|by left|]. simpl. rewrite ?copies_app. simpl. by rewrite ?app_nil_r.
Qed.

(** X12: an empty extension is no extension: a FolderFlow configured with
    the extension [""] has the identifier and the resolution of the same
    flow without extension. *)
Theorem FolderFlow_empty_extension source dest expand (st : state W) :
  FolderFlow.id (FolderFlow.Config source dest expand (Some ""))
    = FolderFlow.id (FolderFlow.Config source dest expand None)
  ∧ FolderFlow.execute (FolderFlow.Config source dest expand (Some "")) st
    = FolderFlow.execute (FolderFlow.Config source dest expand None) st.
Proof. split; reflexivity. Qed.
End FolderFlowProperties.

Lemma FolderFlow_execute_result_witness :
  ∃ lines,
    (host_find "assets/fonts" (Some "*.ttf")
       (host_mkdir "build/fonts" true
          (SimHost.World ["assets/fonts/a.ttf"; "assets/logo.png"] None)).2).1 = Ok lines
    ∧ Arr ["assets/fonts/a.ttf"] = Arr (List.filter str_truthy lines)
    ∧ Forall (λ f, f ≠ "") (List.filter str_truthy lines).
Proof.
  apply (@FolderFlow_execute_result _ SimHost.host
           (FolderFlow.Config "assets/fonts" "build/fonts" (Some true) (Some "ttf"))
           (SimHost.init ["assets/fonts/a.ttf"; "assets/logo.png"])
           (Arr ["assets/fonts/a.ttf"]) (Str "build/fonts")
           (State (SimHost.World ["build/fonts"; "assets/fonts/a.ttf"; "assets/logo.png"] None)
                  [mkdir "build/fonts" true; find "assets/fonts" (Some "*.ttf");
                   console_log "Found file: assets/fonts/a.ttf"])
           eq_refl).
Defined.

(** *** Steps of the built-in flows with the copy runner *)

Section StepProperties.
Context {W : Type} `{!Host W}.

(** The identifier of a FolderFlow is never the name of an inherited
    property. *)
Lemma FolderFlow_id_readable (flows : gmap string (list string)) (c : FolderFlow.config) :
  readable flows (FolderFlow.id c) = true.
Proof.
  unfold readable. destruct (flows !! FolderFlow.id c); [done|].
  unfold FolderFlow.id. destruct (FolderFlow.extension c) as [ext|]; [|done].
  by destruct (str_truthy ext).
Qed.

Lemma merge_nil tracked : Project.merge tracked [] = [].
Proof.
  unfold Project.merge. rewrite app_nil_r.
  assert (List.filter (includes []) (Array_from (default [] tracked)) = []) as ->; [|done].
  induction (Array_from (default [] tracked)) as [|x l IH]; [done|].
  change (List.filter (includes []) (x :: l))
    with (if includes [] x then x :: List.filter (includes []) l
          else List.filter (includes []) l).
  assert (includes [] x = false) as ->; [|done].
  apply not_true_iff_false. rewrite includes_true. apply not_elem_of_nil.
Qed.

(** X13: when the flow of a step throws, [executeStep] ends with that
    error in the state the flow left: the runner is not run and the project
    is as it was. *)
Theorem executeStep_flow_throws runner flow (this : Project.t W) st e st1 :
  execute flow (logged ("Executing flow: " +:+ id flow) st) = (Err e, st1) →
  Project.executeStep runner flow (this, st) = (Err e, (this, st1)).
Proof.
  intros Hex. unfold Project.executeStep.
  unfold bind at 1. unfold Project.lift at 1. unfold emit at 1. simpl.
  unfold bind at 1. unfold Project.lift at 1.
  unfold logged in Hex. by rewrite Hex.
Qed.

(** X14: whatever happens in a step, [executeStep] leaves the name, the
    steps and the dependencies of the project alone, and of [flows] it
    changes at most the entry of the flow's own identifier. *)
Theorem executeStep_frame runner flow (this : Project.t W) st :
  let this' := (Project.executeStep runner flow (this, st)).2.1 in
  Project.name this' = Project.name this
  ∧ Project.steps this' = Project.steps this
  ∧ Project.dependencies this' = Project.dependencies this
  ∧ ∀ k, k ≠ id flow → Project.flows this' !! k = Project.flows this !! k.
Proof.
  destruct (execute flow (logged ("Executing flow: " +:+ id flow) st))
    as [[[files destPath]|e] st1] eqn:Hex.
  - rewrite (executeStep_resolved _ _ _ _ _ _ _ Hex).
    destruct files as [|p|filesArray]; [done|done|].
    destruct (spread_tracked (Project.flows this) (id flow)) as [before|e]; [|done].
    simpl. split_and!; try done.
    intros k Hk. by rewrite lookup_insert_ne.
  - assert (Project.executeStep runner flow (this, st) = (Err e, (this, st1))) as ->; [|done].
    unfold Project.executeStep.
    unfold bind at 1. unfold Project.lift at 1. unfold emit at 1. simpl.
    unfold bind at 1. unfold Project.lift at 1.
    unfold logged in Hex. by rewrite Hex.
Qed.

(** X15: a step of a VoidFileFlow with the copy runner copies nothing and
    cannot fail: the flow resolves to its path and no destination, which
    the guard of [CopyRunner.run] skips; the step only writes its three
    lines to the console and leaves the project and the world as they
    were. *)
Theorem step_VoidFileFlow_skipped (filePath : string) (this : Project.t W) st :
  Project.executeStep CopyRunner.new (VoidFileFlow.new filePath) (this, st)
  = (Ok (),
     (this,
      State (world st)
        (trace st ++
         [console_log ("Executing flow: VoidFileFlow:" +:+ filePath);
          console_log "Running runner: CopyRunner";
          console_log "No source or destination provided to CopyRunner."]))).
Proof.
  rewrite (executeStep_resolved _ _ _ _ (Str filePath) Undefined
             (logged ("Executing flow: " +:+ id (VoidFileFlow.new (W:=W) filePath)) st));
    [|done].
  cbv zeta. simpl run. rewrite run_falsy; [|by right].
  simpl. unfold logged. simpl. by rewrite <- !app_assoc.
Qed.

(** X16: a step of a FileFlow with non-empty source and destination and
    the copy runner makes exactly one copy call, from the configured
    source to the configured destination, and leaves the project as it
    was; the step ends as that call ends. *)
Theorem step_FileFlow_one_copy (c : FileFlow.config) (this : Project.t W) st :
  str_truthy (FileFlow.source c) = true →
  str_truthy (FileFlow.dest c) = true →
  let answer := host_cp (Str (FileFlow.source c)) (Str (FileFlow.dest c)) (world st) in
  Project.executeStep CopyRunner.new (FileFlow.new c) (this, st)
  = (answer.1,
     (this,
      State answer.2
        (trace st ++
         [console_log ("Executing flow: FileFlow:" +:+ FileFlow.source c);
          console_log "Running runner: CopyRunner";
          console_log ("Copying from " +:+ FileFlow.source c +:+ " to " +:+ FileFlow.dest c);
          cp (Str (FileFlow.source c)) (Str (FileFlow.dest c))]))).
Proof.
  intros Hs Hd answer.
  rewrite (executeStep_resolved _ _ _ _ (Str (FileFlow.source c)) (Str (FileFlow.dest c))
             (logged ("Executing flow: " +:+ id (FileFlow.new (W:=W) c)) st));
    [|done].
  cbv zeta. simpl run. unfold CopyRunner.run, truthy. rewrite Hs, Hd. simpl.
  unfold_M. fold answer. destruct answer as [r w]. simpl.
  by rewrite <- !app_assoc.
Qed.

(** X17: a step of an expanding FolderFlow over a folder in which nothing
    is found, with the copy runner: the step returns normally, every file
    tracked for the flow is dropped (the tracked list becomes empty) and no
    copy call is made. *)
Theorem step_empty_folder (c : FolderFlow.config) (this : Project.t W) st lines :
  default false (FolderFlow.expand c) = true →
  (host_mkdir (FolderFlow.dest c) true (world st)).1 = Ok () →
  (host_find (FolderFlow.source c) (find_pattern c)
             (host_mkdir (FolderFlow.dest c) true (world st)).2).1 = Ok lines →
  List.filter str_truthy lines = [] →
  let out := Project.executeStep CopyRunner.new (FolderFlow.new c) (this, st) in
  out.1 = Ok ()
  ∧ Project.flows out.2.1 = <[FolderFlow.id c := []]> (Project.flows this)
  ∧ copies (trace out.2.2) = copies (trace st).
Proof.
  intros Hexp Hmk Hfind Hnone out. subst out.
  pose proof (FolderFlow_execute_calls c
                (logged ("Executing flow: " +:+ id (FolderFlow.new (W:=W) c)) st)) as Hex.
  cbv zeta in Hex. simpl world in Hex.
  destruct (host_mkdir (FolderFlow.dest c) true (world st)) as [r w].
  simpl in Hmk, Hfind. subst r. simpl in Hex. rewrite Hexp in Hex.
  destruct (host_find (FolderFlow.source c) (find_pattern c) w) as [r w1].
  simpl in Hfind. subst r. simpl in Hex. rewrite Hnone in Hex.
  rewrite (executeStep_resolved CopyRunner.new (FolderFlow.new c) this st _ _ _ Hex).
  simpl id. rewrite (spread_tracked_readable _ _ (FolderFlow_id_readable _ c)).
  cbv zeta. rewrite merge_nil. simpl run. unfold CopyRunner.run, truthy. simpl negb.
  destruct (str_truthy (FolderFlow.dest c)); simpl.
  - split_and!; [done|done|]. rewrite ?copies_app. simpl. by rewrite ?app_nil_r.
  - split_and!; [done|done|]. rewrite ?copies_app. simpl. by rewrite ?app_nil_r.
Qed.
End StepProperties.

Lemma executeStep_flow_throws_witness :
  (Project.executeStep CopyRunner.new
     (mkFlow "Broken" (throw (Error "cannot resolve")))
     (Project.new "bao" [], SimHost.init [])).1 = Err (Error "cannot resolve").
Proof.
  rewrite (executeStep_flow_throws (W:=SimHost.world) CopyRunner.new
             (mkFlow "Broken" (throw (Error "cannot resolve")))
             (Project.new "bao" []) (SimHost.init []) (Error "cannot resolve")
             (logged "Executing flow: Broken" (SimHost.init [])) eq_refl).
  reflexivity.
Defined.

Lemma step_FileFlow_one_copy_witness :
  copies (trace (Project.executeStep CopyRunner.new
                   (FileFlow.new (FileFlow.Config "assets/favicon.ico" "build/favicon.ico"))
                   (Project.new "bao" [], SimHost.init ["assets/favicon.ico"])).2.2)
  = [cp (Str "assets/favicon.ico") (Str "build/favicon.ico")].
Proof.
  rewrite (@step_FileFlow_one_copy _ SimHost.host
             (FileFlow.Config "assets/favicon.ico" "build/favicon.ico")
             (Project.new "bao" []) (SimHost.init ["assets/favicon.ico"]) eq_refl eq_refl).
  reflexivity.
Defined.

Lemma step_empty_folder_witness :
  Project.flows
    (Project.executeStep CopyRunner.new
       (FolderFlow.new (FolderFlow.Config "assets/fonts" "build/fonts" (Some true) None))
       (Project.mk "bao" [] ∅ {[ "FolderFlow:assets/fonts" := ["assets/fonts/a.ttf"] ]},
        SimHost.init ["assets/logo.png"])).2.1
  = <[ "FolderFlow:assets/fonts" := [] ]>
      ({[ "FolderFlow:assets/fonts" := ["assets/fonts/a.ttf"] ]} : gmap string (list string)).
Proof.
  exact (proj1 (proj2 (@step_empty_folder _ SimHost.host
           (FolderFlow.Config "assets/fonts" "build/fonts" (Some true) None)
           (Project.mk "bao" [] ∅ {[ "FolderFlow:assets/fonts" := ["assets/fonts/a.ttf"] ]})
           (SimHost.init ["assets/logo.png"]) [] eq_refl eq_refl eq_refl eq_refl))).
Defined.

(** *** The build as a whole *)

Section BuildProperties.
Context {W : Type} `{!Host W}.

Lemma bind_ok_inv {S A B} (m : M S A) (k : A → M S B) s b s' :
  bind m k s = (Ok b, s') → ∃ a s1, m s = (Ok a, s1) ∧ k a s1 = (Ok b, s').
Proof.
  unfold bind. destruct (m s) as [[a|e] s1]; [|done]. intros Hk. by exists a, s1.
Qed.

Lemma keeps_lift {A B} (f : Project.t W → B) (m : M (state W) A) : keeps f (Project.lift m).
Proof. intros this st. unfold Project.lift. by destruct (m st). Qed.

Lemma keeps_bind {A B C} (f : Project.t W → C)
    (m : M (Project.t W * state W) A) (k : A → M _ B) :
  keeps f m → (∀ a, keeps f (k a)) → keeps f (bind m k).
Proof.
  intros Hm Hk this st. unfold bind. specialize (Hm this st).
  destruct (m (this, st)) as [[a|e] [this' st']]; simpl in *; [|done].
  by rewrite Hk.
Qed.

Lemma keeps_try_catch {A C} (f : Project.t W → C) (m : M (Project.t W * state W) A) h :
  keeps f m → (∀ e, keeps f (h e)) → keeps f (try_catch m h).
Proof.
  intros Hm Hh this st. unfold try_catch. specialize (Hm this st).
  destruct (m (this, st)) as [[a|e] [this' st']]; simpl in *; [done|].
  by rewrite Hh.
Qed.

Lemma keeps_for_of {A C} (f : Project.t W → C) (body : A → M (Project.t W * state W) ()) l :
  (∀ x, keeps f (body x)) → keeps f (for_of l body).
Proof.
  intros Hbody. induction l as [|x l IH]; simpl; [by intros|].
  apply keeps_bind; [apply Hbody|]. by intros _.
Qed.

Lemma keeps_executeStep runner flow :
  keeps (λ this : Project.t W, (Project.name this, Project.steps this))
        (Project.executeStep runner flow).
Proof.
  unfold Project.executeStep.
  apply keeps_bind; [apply keeps_lift|]. intros _.
  apply keeps_bind; [apply keeps_lift|]. intros [files destPath].
  destruct files.
  - apply keeps_bind; [apply keeps_lift|]. intros _. apply keeps_lift.
  - apply keeps_bind; [apply keeps_lift|]. intros _. apply keeps_lift.
  - apply keeps_bind; [by intros|]. intros this0.
    destruct (spread_tracked (Project.flows this0) (id flow)) as [before|e]; [|by intros].
    apply keeps_bind; [by intros|]. intros _.
    apply keeps_bind; [by intros|]. intros this1.
    apply keeps_bind; [apply keeps_lift|]. intros _. apply keeps_lift.
Qed.

Lemma keeps_loadFromManifest :
  keeps (λ this : Project.t W, (Project.name this, Project.steps this))
        Project.loadFromManifest.
Proof.
  unfold Project.loadFromManifest.
  apply keeps_bind; [apply keeps_lift|]. intros [].
  - apply keeps_bind; [apply keeps_lift|]. intros doc.
    apply keeps_bind; by intros.
  - by intros.
Qed.

(** X18: whatever the outcome of [build], it leaves the name and the
    steps of the project as they were: of the project it only assigns
    [dependencies] and [flows]. *)
Theorem build_keeps_name_and_steps (this : Project.t W) (st : state W) :
  Project.name (Project.build (this, st)).2.1 = Project.name this
  ∧ Project.steps (Project.build (this, st)).2.1 = Project.steps this.
Proof.
  assert (keeps (λ this : Project.t W, (Project.name this, Project.steps this))
                Project.build) as Hkeeps.
  { unfold Project.build.
    apply keeps_bind.
    { unfold Project.stage.
      apply keeps_bind; [by intros|]. intros this0.
      apply keeps_bind; [apply keeps_lift|]. intros _.
      apply keeps_bind.
      { apply keeps_try_catch.
        - apply keeps_bind; [apply keeps_loadFromManifest|]. intros _.
          apply keeps_bind; [by intros|]. intros. apply keeps_lift.
        - intros e. destruct (String.eqb _ _); [apply keeps_lift|by intros]. }
      intros _.
      repeat (apply keeps_bind; [apply keeps_lift|]; intros _).
      apply keeps_lift. }
    intros _. apply keeps_bind.
    { apply keeps_bind; [by intros|]. intros this1.
      apply keeps_for_of. intros s. apply keeps_executeStep. }
    intros _. unfold Project.publish.
    repeat (apply keeps_bind; [apply keeps_lift|]; intros _).
    unfold Project.saveToManifest.
    apply keeps_bind; [by intros|]. intros this2. apply keeps_lift. }
  specialize (Hkeeps this st). simpl in Hkeeps. by injection Hkeeps.
Qed.

(** X19: a build that returns normally has, as its last call, written
    the manifest, and the document written is the one of the project as
    the build leaves it. *)
Theorem build_ends_with_save (this : Project.t W) st this' st' :
  Project.build (this, st) = (Ok (), (this', st')) →
  ∃ tr, trace st' = tr ++ [file_write MANIFEST_FILE (Project.toJSON this')].
Proof.
  unfold Project.build. intros Hbuild.
  apply bind_ok_inv in Hbuild as ([] & [this0 st0] & _ & Hbuild).
  apply bind_ok_inv in Hbuild as ([] & [this1 st1] & _ & Hpub).
  unfold Project.publish in Hpub.
  apply bind_ok_inv in Hpub as ([] & [this2 st2] & H1 & Hpub).
  apply bind_ok_inv in Hpub as ([] & [this3 st3] & H2 & Hpub).
  apply bind_ok_inv in Hpub as ([] & [this4 st4] & H3 & Hpub).
  apply bind_ok_inv in Hpub as ([] & [this5 st5] & H4 & Hsave).
  unfold Project.saveToManifest, bind, Project.get_this, Project.lift, do_write, call in Hsave.
  destruct (host_write _ _ (world st5)) as [r w]. simpl in Hsave.
  injection Hsave as -> <- <-. by eexists.
Qed.

(** X20: when [loadFromManifest] throws an error whose message is that of
    the missing-manifest signal, [build] goes on: it warns on the console
    and starts staging, by removing the temporary directory. *)
Theorem stage_swallows_signal (this : Project.t W) st e this1 st1 :
  Project.loadFromManifest
    (this, logged ("Building project: " +:+ Project.name this) st) = (Err e, (this1, st1)) →
  message e = "manifestFileNotfound" →
  ∃ tl, trace (Project.stage (this, st)).2.2
        = trace st1 ++ console_warn "no manifest file were found"
                       :: rm ("../" +:+ TMP_PATH) :: tl.
Proof.
  intros Hload Hmsg. unfold Project.stage.
  unfold bind at 1. simpl. unfold bind at 1. unfold Project.lift at 1, emit at 1. simpl.
  unfold logged in Hload.
  unfold bind at 1. unfold try_catch. unfold bind at 1. rewrite Hload, Hmsg. simpl.
  unfold bind at 1. unfold Project.lift at 1, do_rm, call. simpl.
  destruct (host_rm ("../" +:+ TMP_PATH) (world st1)) as [[[]|e1] w1]; simpl.
  - unfold Project.lift, bind, do_mkdir, do_cp, do_chdir, call. simpl.
    repeat (case_match; simplify_eq/=); rewrite <- ?app_assoc; simpl; by eexists.
  - exists []. by rewrite <- app_assoc.
Qed.

(** X21: when [loadFromManifest] throws an error with any other message
    (the manifest exists and cannot be read), [build] ends with that error
    at once: nothing is staged, no step is run. *)
Theorem build_manifest_error_fatal (this : Project.t W) st e this1 st1 :
  Project.loadFromManifest
    (this, logged ("Building project: " +:+ Project.name this) st) = (Err e, (this1, st1)) →
  message e ≠ "manifestFileNotfound" →
  Project.build (this, st) = (Err e, (this1, st1)).
Proof.
  intros Hload Hmsg. unfold Project.build. apply bind_err.
  unfold Project.stage.
  unfold bind at 1. simpl. unfold bind at 1. unfold Project.lift at 1, emit at 1. simpl.
  unfold logged in Hload.
  unfold bind at 1. unfold try_catch. unfold bind at 1. rewrite Hload.
  apply String.eqb_neq in Hmsg. by rewrite Hmsg.
Qed.

(** X22: a [loadFromManifest] that returns normally has replaced the
    dependencies and the tracked files of the project by those of the
    document read; the name and the steps of the project stay, whatever
    the document says. *)
Theorem loadFromManifest_overwrites (this : Project.t W) st this' st' :
  Project.loadFromManifest (this, st) = (Ok (), (this', st')) →
  ∃ doc,
    (host_json MANIFEST_FILE (host_exists MANIFEST_FILE (world st)).2).1 = Ok doc
    ∧ this' = Project.mk (Project.name this) (Project.steps this)
                         (doc_dependencies doc) (doc_flows doc).
Proof.
  rewrite Project_loadFromManifest_calls.
  destruct (host_exists MANIFEST_FILE (world st)) as [[] w]; simpl; [|done].
  destruct (host_json MANIFEST_FILE w) as [[doc|e] w1]; simpl; [|done].
  intros [= <- _]. by exists doc.
Qed.

(** X23: on a host that keeps what is written to the manifest file,
    saving a project and loading the manifest into it again gives the
    project back: same dependencies, same tracked files in the same
    order. *)
Theorem save_load_roundtrip (this : Project.t W) (st : state W) :
  keeps_manifest (Project.toJSON this) (world st) →
  ((Project.saveToManifest;; Project.loadFromManifest) (this, st)).1 = Ok ()
  ∧ ((Project.saveToManifest;; Project.loadFromManifest) (this, st)).2.1 = this.
Proof.
  unfold keeps_manifest. cbv zeta. intros (Hw & Hx & Hr).
  assert (∃ st', (Project.saveToManifest;; Project.loadFromManifest) (this, st)
                 = (Ok (), (this, st'))) as [st' ->]; [|done].
  unfold bind at 1. unfold Project.saveToManifest, bind, Project.get_this, Project.lift,
    do_write, call. simpl.
  destruct (host_write MANIFEST_FILE (Project.toJSON this) (world st)) as [r w].
  simpl in *. subst r.
  rewrite Project_loadFromManifest_calls. simpl.
  destruct (host_exists MANIFEST_FILE w) as [b w1]. simpl in *. subst b.
  destruct (host_json MANIFEST_FILE w1) as [r w2]. simpl in *. subst r.
  eexists. f_equal. f_equal. destruct this as [name steps deps flows].
  unfold Project.set_flows, Project.set_dependencies, Project.toJSON. simpl.
  f_equal. unfold Array_from. apply map_fmap_id.
Qed.
End BuildProperties.

Lemma build_ends_with_save_witness :
  ∃ tr,
    trace (Project.build
             (Project.new "bao"
                [Project.mkStep CopyRunner.new
                   (FileFlow.new (FileFlow.Config "assets/favicon.ico" "build/favicon.ico"))],
              SimHost.init ["assets"; "assets/favicon.ico"; "./.bao_tmp/build"])).2.2
    = tr ++ [file_write MANIFEST_FILE (Manifest "bao" ∅ ∅ None "./.bao_tmp")].
Proof.
  eapply (@build_ends_with_save _ SimHost.host
            (Project.new "bao"
               [Project.mkStep CopyRunner.new
                  (FileFlow.new (FileFlow.Config "assets/favicon.ico" "build/favicon.ico"))])
            (SimHost.init ["assets"; "assets/favicon.ico"; "./.bao_tmp/build"])
            (Project.new "bao"
               [Project.mkStep CopyRunner.new
                  (FileFlow.new (FileFlow.Config "assets/favicon.ico" "build/favicon.ico"))])).
  reflexivity.
Defined.

Lemma stage_swallows_signal_witness :
  ∃ tl,
    trace (Project.stage (Project.new "bao" [], SimHost.init ["assets"])).2.2
    = [console_log "Building project: bao"; file_exists MANIFEST_FILE]
      ++ console_warn "no manifest file were found" :: rm ".././.bao_tmp" :: tl.
Proof.
  apply (@stage_swallows_signal _ SimHost.host (Project.new "bao" []) (SimHost.init ["assets"])
           (Error "manifestFileNotfound") (Project.new "bao" [])
           (State (SimHost.World ["assets"] None)
                  [console_log "Building project: bao"; file_exists MANIFEST_FILE])
           eq_refl eq_refl).
Defined.

Lemma build_manifest_error_fatal_witness :
  @Project.build () CorruptManifestHost.host (Project.new "bao" [], State () [])
  = (Err CorruptManifestHost.SyntaxError,
     (Project.new "bao" [],
      State () [console_log "Building project: bao"; file_exists MANIFEST_FILE;
                file_json MANIFEST_FILE])).
Proof.
  apply (@build_manifest_error_fatal _ CorruptManifestHost.host); [reflexivity|].
  simpl. discriminate.
Defined.

Lemma loadFromManifest_overwrites_witness :
  ∃ doc,
    (host_json MANIFEST_FILE
       (host_exists MANIFEST_FILE
          (SimHost.World []
             (Some (Manifest "other" {[ "left-pad" := "1.3.0" ]} ∅ None "./.bao_tmp")))).2).1
    = Ok doc
    ∧ Project.mk "bao" [] {[ "left-pad" := "1.3.0" ]} ∅
      = Project.mk (W:=SimHost.world) "bao" [] (doc_dependencies doc) (doc_flows doc).
Proof.
  eapply (@loadFromManifest_overwrites _ SimHost.host
            (Project.mk "bao" [] {[ "is-odd" := "3.0.1" ]}
               {[ "FileFlow:assets/a" := ["assets/a"] ]})
            (State (SimHost.World []
                      (Some (Manifest "other" {[ "left-pad" := "1.3.0" ]} ∅ None "./.bao_tmp")))
                   [])).
  reflexivity.
Defined.

Lemma save_load_roundtrip_witness :
  ((Project.saveToManifest;; Project.loadFromManifest)
     (Project.mk "bao" [] {[ "left-pad" := "1.3.0" ]}
        {[ "FolderFlow:assets/fonts" := ["assets/fonts/a.ttf"] ]},
      SimHost.init [])).2.1
  = Project.mk "bao" [] {[ "left-pad" := "1.3.0" ]}
      {[ "FolderFlow:assets/fonts" := ["assets/fonts/a.ttf"] ]}.
Proof.
  apply (@save_load_roundtrip _ SimHost.host).
  split_and!; reflexivity.
Defined.

(** *** The codec of the registry revision *)

Section CodecProperties.
Context {W : Type} `{!Host W}.

Lemma decode_encode_step_erase registry (s : ManifestCodec.Step) (st : state W) :
  decodable registry s →
  ManifestCodec.decode_step registry (ManifestCodec.encode_step s) st = (Ok (erase_step s), st).
Proof.
  intros (Hr & Hf & Hnull). destruct s as [r f].
  unfold ManifestCodec.decode_step, ManifestCodec.encode_step, erase_step. simpl in *.
  rewrite (find_runner_class _ _ Hr), (find_flow_class _ _ Hf).
  destruct r. unfold bind. simpl.
  destruct f as [c|c|p]; simpl in *; try done; by destruct c.
Qed.

Lemma fromManifest_toJSON_erases registry (this : ManifestCodec.t) (st : state W) :
  Forall (decodable registry) (ManifestCodec.steps this) →
  ManifestCodec.fromManifest registry (ManifestCodec.toJSON this) st
  = (Ok (erase_paths this), st).
Proof.
  intros Hall. destruct this as [name deps flows steps]. simpl in Hall.
  unfold ManifestCodec.fromManifest, ManifestCodec.toJSON, erase_paths. simpl.
  assert (ManifestCodec.map_M (ManifestCodec.decode_step registry)
            (map ManifestCodec.encode_step steps) st = (Ok (map erase_step steps), st))
    as Hsteps.
  { induction Hall as [|s l Hs _ IH]; [done|].
    simpl. unfold bind at 1. rewrite decode_encode_step_erase; [|done].
    unfold bind at 1. by rewrite IH. }
  unfold bind. rewrite Hsteps. unfold ret, ManifestCodec.new. simpl.
  do 2 f_equal. unfold Array_from. f_equal. apply map_fmap_id.
Qed.

Lemma erase_step_with_config (s : ManifestCodec.Step) :
  ManifestCodec.flow_config (ManifestCodec.flow s) ≠ None → erase_step s = s.
Proof. destruct s as [r [c|c|p]]; simpl; done. Qed.

(** X24: the round trip of the registry codec, as the code has it.  On a
    host that keeps what is written to the manifest file, saving a project
    and loading the manifest with a registry that has the classes of its
    steps gives back the project with the same name, dependencies, tracked
    files and steps in the same order, except that every [VoidFileFlow]
    has lost its path.  A project whose flows all have a [config] comes
    back as it was. *)
Theorem codec_roundtrip_erases_paths registry (this : ManifestCodec.t) (st : state W) :
  keeps_manifest (ManifestCodec.toJSON this) (world st) →
  Forall (decodable registry) (ManifestCodec.steps this) →
  ((ManifestCodec.saveToManifest this;; ManifestCodec.loadFromManifest registry) st).1
    = Ok (erase_paths this)
  ∧ (Forall (λ s, ManifestCodec.flow_config (ManifestCodec.flow s) ≠ None)
            (ManifestCodec.steps this) →
     erase_paths this = this).
Proof.
  unfold keeps_manifest. cbv zeta. intros (Hw & Hx & Hr) Hall. split.
  - unfold bind at 1. unfold ManifestCodec.saveToManifest, do_write, call.
    destruct (host_write MANIFEST_FILE (ManifestCodec.toJSON this) (world st)) as [r w].
    simpl in *. subst r.
    rewrite ManifestCodec_loadFromManifest_calls. simpl.
    destruct (host_exists MANIFEST_FILE w) as [b w1]. simpl in *. subst b.
    destruct (host_json MANIFEST_FILE w1) as [r w2]. simpl in *. subst r.
    by rewrite fromManifest_toJSON_erases.
  - intros Hcfg. destruct this as [name deps flows steps]. unfold erase_paths. simpl in *.
    f_equal. clear Hall Hw Hx Hr.
    induction Hcfg as [|s l Hs _ IH]; [done|]. simpl.
    by rewrite erase_step_with_config, IH.
Qed.

Lemma find_runner_some registry cn func :
  List.find (λ f, String.eqb (ManifestCodec.runner_class_name f) cn)
            (ManifestCodec.registry_runners registry) = Some func →
  func ∈ ManifestCodec.registry_runners registry ∧ ManifestCodec.runner_class_name func = cn.
Proof.
  intros [Hin Heq]%find_some. split; [by apply list_elem_of_In|].
  by apply String.eqb_eq.
Qed.

Lemma find_flow_some registry cn func :
  List.find (λ f, String.eqb (ManifestCodec.flow_class_name f) cn)
            (ManifestCodec.registry_flows registry) = Some func →
  func ∈ ManifestCodec.registry_flows registry ∧ ManifestCodec.flow_class_name func = cn.
Proof.
  intros [Hin Heq]%find_some. split; [by apply list_elem_of_In|].
  by apply String.eqb_eq.
Qed.

Lemma new_flow_class func cfg flow :
  ManifestCodec.new_flow func cfg = Ok flow → ManifestCodec.flow_class_of flow = func.
Proof. destruct func, cfg as [[]|]; simpl; by intros [= <-]. Qed.

(** A decoded step: its classes are those the document names, found in
    the registry; decoding does not touch the host. *)
Lemma decode_step_ok registry (sd : step_doc) (st : state W) s st' :
  ManifestCodec.decode_step registry sd st = (Ok s, st') →
  st' = st
  ∧ ManifestCodec.runner_class_of (ManifestCodec.runner s)
      ∈ ManifestCodec.registry_runners registry
  ∧ ManifestCodec.runner_class_name (ManifestCodec.runner_class_of (ManifestCodec.runner s))
      = className (doc_runner sd)
  ∧ ManifestCodec.flow_class_of (ManifestCodec.flow s)
      ∈ ManifestCodec.registry_flows registry
  ∧ ManifestCodec.flow_class_name (ManifestCodec.flow_class_of (ManifestCodec.flow s))
      = className (doc_flow sd).
Proof.
  unfold ManifestCodec.decode_step, bind.
  destruct (List.find _ (ManifestCodec.registry_runners registry)) as [rc|] eqn:Hr; [|done].
  apply find_runner_some in Hr as [Hrin Hrn]. destruct rc. simpl.
  destruct (List.find _ (ManifestCodec.registry_flows registry)) as [fc|] eqn:Hf; [|done].
  apply find_flow_some in Hf as [Hfin Hfn].
  destruct (ManifestCodec.new_flow fc (config (doc_flow sd))) as [flow|e] eqn:Hnew; [|done].
  simpl. intros [= <- <-]. apply new_flow_class in Hnew. simpl. rewrite Hnew.
  by split_and!.
Qed.

(** X25: a manifest that [loadFromManifest] has decoded: the project has
    the name, the dependencies and the tracked files of the document, and
    one step for each step of the document, in the same order, whose
    runner and flow are of the classes that the document names, both
    taken from the registry.  Decoding itself makes no host call. *)
Theorem fromManifest_ok registry (doc : manifest) (st : state W) this st' :
  ManifestCodec.fromManifest registry doc st = (Ok this, st') →
  st' = st
  ∧ ManifestCodec.name this = doc_name doc
  ∧ ManifestCodec.dependencies this = doc_dependencies doc
  ∧ ManifestCodec.flows this = doc_flows doc
  ∧ ∃ docs,
      doc_steps doc = Some docs
      ∧ Forall2 (λ sd s,
           ManifestCodec.runner_class_of (ManifestCodec.runner s)
             ∈ ManifestCodec.registry_runners registry
           ∧ ManifestCodec.runner_class_name
               (ManifestCodec.runner_class_of (ManifestCodec.runner s))
             = className (doc_runner sd)
           ∧ ManifestCodec.flow_class_of (ManifestCodec.flow s)
             ∈ ManifestCodec.registry_flows registry
           ∧ ManifestCodec.flow_class_name
               (ManifestCodec.flow_class_of (ManifestCodec.flow s))
             = className (doc_flow sd))
          docs (ManifestCodec.steps this).
Proof.
  unfold ManifestCodec.fromManifest. intros Hdec.
  apply bind_ok_inv in Hdec as (steps & st1 & Hsteps & Hret).
  injection Hret as <- <-.
  destruct (doc_steps doc) as [docs|]; [|done].
  assert (st1 = st ∧ Forall2 (λ sd s,
           ManifestCodec.runner_class_of (ManifestCodec.runner s)
             ∈ ManifestCodec.registry_runners registry
           ∧ ManifestCodec.runner_class_name
               (ManifestCodec.runner_class_of (ManifestCodec.runner s))
             = className (doc_runner sd)
           ∧ ManifestCodec.flow_class_of (ManifestCodec.flow s)
             ∈ ManifestCodec.registry_flows registry
           ∧ ManifestCodec.flow_class_name
               (ManifestCodec.flow_class_of (ManifestCodec.flow s))
             = className (doc_flow sd)) docs steps) as [-> Hall].
  { clear -Hsteps. revert st steps st1 Hsteps.
    induction docs as [|sd docs IH]; intros st steps st1; simpl.
    - intros [= <- <-]. split; [done|]. constructor.
    - intros Hb. apply bind_ok_inv in Hb as (s & st2 & Hs & Hb).
      apply bind_ok_inv in Hb as (ss & st3 & Hss & Hret).
      injection Hret as <- <-.
      apply decode_step_ok in Hs as (-> & Hs).
      apply IH in Hss as [-> Hall]. split; [done|]. by constructor. }
  split_and!; try done. by exists docs.
Qed.

Lemma find_none_name {A} (name_of : A → string) (l : list A) cn :
  cn ∉ map name_of l → List.find (λ f, String.eqb (name_of f) cn) l = None.
Proof.
  induction l as [|x l IH]; intros Hnot; [done|]. simpl.
  destruct (String.eqb (name_of x) cn) eqn:E.
  - apply String.eqb_eq in E. destruct Hnot. simpl. rewrite E. apply list_elem_of_here.
  - apply IH. intros Hin. apply Hnot. simpl. by apply list_elem_of_further.
Qed.

Lemma map_M_stops {S A B} (f : A → M S B) pre x post (s : S) ys s1 e s2 :
  ManifestCodec.map_M f pre s = (Ok ys, s1) →
  f x s1 = (Err e, s2) →
  ManifestCodec.map_M f (pre ++ x :: post) s = (Err e, s2).
Proof.
  revert s ys. induction pre as [|y pre IH]; intros s ys; simpl.
  - intros [= _ <-] Hx. by rewrite (bind_err _ _ _ _ _ Hx).
  - intros Hb Hx. apply bind_ok_inv in Hb as (b & s3 & Hy & Hb).
    apply bind_ok_inv in Hb as (bs & s4 & Hpre & Hret). injection Hret as _ <-.
    rewrite (bind_ok _ _ _ _ _ Hy). apply bind_err. by eapply IH.
Qed.

(** X26: a class name that the registry does not have is fatal and is
    named.  When the steps of the document before some step have been
    decoded and the runner class of that step is not the name of a
    constructor in [config.runners], decoding ends with the error
    "could not find" that names this class and [config.runners]; when the
    runner class is there and the flow class is not in [config.flows], it
    ends with the error that names the flow class and [config.flows]. *)
Theorem fromManifest_class_not_found
    registry (doc : manifest) pre sd post (st : state W) decoded st1 :
  doc_steps doc = Some (pre ++ sd :: post) →
  ManifestCodec.map_M (ManifestCodec.decode_step registry) pre st = (Ok decoded, st1) →
  (className (doc_runner sd)
     ∉ map ManifestCodec.runner_class_name (ManifestCodec.registry_runners registry) →
   ManifestCodec.fromManifest registry doc st
   = (Err (ManifestCodec.not_found (className (doc_runner sd)) "config.runners"), st1))
  ∧ (className (doc_runner sd)
       ∈ map ManifestCodec.runner_class_name (ManifestCodec.registry_runners registry) →
     className (doc_flow sd)
       ∉ map ManifestCodec.flow_class_name (ManifestCodec.registry_flows registry) →
     ManifestCodec.fromManifest registry doc st
     = (Err (ManifestCodec.not_found (className (doc_flow sd)) "config.flows"), st1)).
Proof.
  intros Hdoc Hpre. unfold ManifestCodec.fromManifest. rewrite Hdoc. split.
  - intros Hnot. apply bind_err. eapply map_M_stops; [done|].
    unfold ManifestCodec.decode_step.
    by rewrite (find_none_name _ _ _ Hnot).
  - intros Hin Hnot. apply bind_err. eapply map_M_stops; [done|].
    unfold ManifestCodec.decode_step.
    apply list_elem_of_fmap in Hin as (rc & Hname & Hin).
    rewrite Hname, (find_runner_class _ _ Hin).
    destruct rc. unfold bind. simpl.
    by rewrite (find_none_name _ _ _ Hnot).
Qed.
End CodecProperties.

Lemma codec_roundtrip_erases_paths_witness :
  ((ManifestCodec.saveToManifest
      (ManifestCodec.mk "bao" {[ "left-pad" := "1.3.0" ]} ∅
         [ManifestCodec.mkStep ManifestCodec.CopyRunner
            (ManifestCodec.FileFlow (JObj [("source", JStr "a"); ("dest", JStr "b")]));
          ManifestCodec.mkStep ManifestCodec.CopyRunner
            (ManifestCodec.VoidFileFlow (Some (JStr "assets/robots.txt")))]);;
    ManifestCodec.loadFromManifest
      (ManifestCodec.mkRegistry [ManifestCodec.CopyRunnerClass]
         [ManifestCodec.FileFlowClass; ManifestCodec.VoidFileFlowClass]))
     (SimHost.init [])).1
  = Ok (ManifestCodec.mk "bao" {[ "left-pad" := "1.3.0" ]} ∅
          [ManifestCodec.mkStep ManifestCodec.CopyRunner
             (ManifestCodec.FileFlow (JObj [("source", JStr "a"); ("dest", JStr "b")]));
           ManifestCodec.mkStep ManifestCodec.CopyRunner (ManifestCodec.VoidFileFlow None)]).
Proof.
  apply (@codec_roundtrip_erases_paths _ SimHost.host).
  - split_and!; reflexivity.
  - repeat constructor; simpl; discriminate.
Defined.

Lemma fromManifest_ok_witness :
  ManifestCodec.name
    (ManifestCodec.mk "bao" ∅ ∅ [ManifestCodec.mkStep ManifestCodec.CopyRunner
                                   (ManifestCodec.FolderFlow (JObj []))])
  = "bao".
Proof.
  apply (proj1 (proj2 (@fromManifest_ok SimHost.world
           (ManifestCodec.mkRegistry [ManifestCodec.CopyRunnerClass]
              [ManifestCodec.FolderFlowClass])
           (Manifest "bao" ∅ ∅
              (Some [StepDoc (ClassDoc "CopyRunner" None)
                       (ClassDoc "FolderFlow" (Some (JObj [])))])
              "./.bao_tmp")
           (SimHost.init []) _ (SimHost.init []) eq_refl))).
Defined.

Lemma fromManifest_class_not_found_witness :
  ManifestCodec.fromManifest
    (ManifestCodec.mkRegistry [ManifestCodec.CopyRunnerClass] [ManifestCodec.FolderFlowClass])
    (Manifest "bao" ∅ ∅
       (Some [StepDoc (ClassDoc "CopyRunner" None) (ClassDoc "FolderFlow" (Some (JObj [])));
              StepDoc (ClassDoc "CopyRunner" None) (ClassDoc "FileFlow" (Some (JObj [])))])
       "./.bao_tmp")
    (SimHost.init [])
  = (Err (Error "could not find 'FileFlow' on 'config.flows', perhaps 'FileFlow' is not defined on your config?"),
     SimHost.init []).
Proof.
  apply (proj2 (@fromManifest_class_not_found SimHost.world
           (ManifestCodec.mkRegistry [ManifestCodec.CopyRunnerClass]
              [ManifestCodec.FolderFlowClass])
           (Manifest "bao" ∅ ∅
              (Some [StepDoc (ClassDoc "CopyRunner" None)
                       (ClassDoc "FolderFlow" (Some (JObj [])));
                     StepDoc (ClassDoc "CopyRunner" None)
                       (ClassDoc "FileFlow" (Some (JObj [])))])
              "./.bao_tmp")
           [StepDoc (ClassDoc "CopyRunner" None) (ClassDoc "FolderFlow" (Some (JObj [])))]
           (StepDoc (ClassDoc "CopyRunner" None) (ClassDoc "FileFlow" (Some (JObj []))))
           [] (SimHost.init [])
           [ManifestCodec.mkStep ManifestCodec.CopyRunner (ManifestCodec.FolderFlow (JObj []))]
           (SimHost.init []) eq_refl eq_refl)).
  - simpl. apply list_elem_of_here.
  - simpl. intros Hin%list_elem_of_singleton. discriminate.
Defined.

(** *** Tracking in the registry revision *)

Section ExecuteRunnerProperties.
Context {W : Type} `{!Host W}.

(** X27: [executeRunner] of the registry revision tracks every
    resolution, also one that is not a list.  When the flow's identifier
    is an own key of [flows], or is not a property name that a plain
    object inherits from [Object.prototype], then after [executeRunner]
    the files tracked for the identifier are exactly the resolved paths
    (the single path when the source is a non-empty string, none when it
    is empty or [undefined]), each once.  Unlike [executeStep], it runs
    the runner on the resolved source itself, not on the tracked list. *)
Theorem executeRunner_tracks_every_resolution
    (name : string) (runner : Runner W) (flow : Flow W)
    (flows : gmap string (list string)) (st : state W)
    (files destPath : selector) st1 :
  readable flows (id flow) = true →
  execute flow (logged ("Executing flow: " +:+ id flow) st) = (Ok (files, destPath), st1) →
  ∃ tracked : list string,
    (∀ f, f ∈ tracked ↔ f ∈ ExecuteRunner.as_array files)
    ∧ NoDup tracked
    ∧ (let out := run runner files destPath (logged ("Running runner: " +:+ name) st1) in
       ExecuteRunner.executeRunner name runner flow (flows, st)
       = (out.1, (<[id flow := tracked]> flows, out.2))).
Proof.
  intros Hread Hex.
  exists (Project.merge (flows !! id flow) (ExecuteRunner.as_array files)). split_and!.
  - intros f. apply merge_spec.
  - apply new_Set_NoDup.
  - unfold ExecuteRunner.executeRunner.
    unfold bind at 1. unfold ExecuteRunner.lift at 1. unfold emit at 1. simpl.
    unfold bind at 1. unfold ExecuteRunner.lift at 1.
    unfold logged in Hex. rewrite Hex.
    unfold bind at 1. rewrite (spread_tracked_readable _ _ Hread).
    unfold bind, ExecuteRunner.lift, emit. simpl. unfold logged, Project.merge.
    by destruct (run runner files destPath _) as [r st2].
Qed.

(** For an identifier that [flows] only inherits, the spread throws:
    nothing is tracked and the runner is not run. *)
Lemma executeRunner_unreadable_throws
    (name : string) (runner : Runner W) (flow : Flow W)
    (flows : gmap string (list string)) (st : state W)
    (files destPath : selector) st1 :
  readable flows (id flow) = false →
  execute flow (logged ("Executing flow: " +:+ id flow) st) = (Ok (files, destPath), st1) →
  ExecuteRunner.executeRunner name runner flow (flows, st)
  = (Err spread_TypeError, (flows, st1)).
Proof.
  intros Hread Hex. unfold ExecuteRunner.executeRunner.
  unfold bind at 1. unfold ExecuteRunner.lift at 1. unfold emit at 1. simpl.
  unfold bind at 1. unfold ExecuteRunner.lift at 1.
  unfold logged in Hex. rewrite Hex.
  unfold bind at 1. by rewrite (spread_tracked_unreadable _ _ Hread).
Qed.
End ExecuteRunnerProperties.

Lemma executeRunner_tracks_every_resolution_witness :
  ∃ tracked : list string,
    (∀ f, f ∈ tracked ↔ f ∈ ["assets/favicon.ico"])
    ∧ NoDup tracked
    ∧ (ExecuteRunner.executeRunner "GenericBuilder" CopyRunner.new
         (FileFlow.new (FileFlow.Config "assets/favicon.ico" "build/favicon.ico"))
         (∅, SimHost.init ["assets/favicon.ico"])).2.1
      = <[ "FileFlow:assets/favicon.ico" := tracked ]> ∅.
Proof.
  assert (readable (∅ : gmap string (list string))
            (id (FileFlow.new (W:=SimHost.world)
                   (FileFlow.Config "assets/favicon.ico" "build/favicon.ico"))) = true)
    as Hread by reflexivity.
  destruct (executeRunner_tracks_every_resolution (W:=SimHost.world)
              "GenericBuilder" CopyRunner.new
              (FileFlow.new (FileFlow.Config "assets/favicon.ico" "build/favicon.ico"))
              ∅ (SimHost.init ["assets/favicon.ico"])
              (Str "assets/favicon.ico") (Str "build/favicon.ico")
              (logged "Executing flow: FileFlow:assets/favicon.ico"
                      (SimHost.init ["assets/favicon.ico"]))
              Hread eq_refl) as (tracked & Hin & Hnd & Heq).
  exists tracked. split_and!; [done|done|]. by rewrite Heq.
Defined.

(** *** What staging removes *)

Section StageProperties.
Context {W : Type} `{!Host W}.

(** X28: the only removal that the staging part of [build] asks for is
    that of [../${TMP_PATH}], relative to the directory the build starts
    in: it never removes the temporary directory [TMP_PATH] itself, into
    which it then copies the assets. *)
Theorem stage_never_removes_TMP_PATH (this : Project.t W) (st : state W) :
  ∃ tr, trace (Project.stage (this, st)).2.2 = trace st ++ tr
        ∧ (∀ p, rm p ∈ tr → p = ".././.bao_tmp")
        ∧ rm TMP_PATH ∉ tr.
Proof.
  assert (∃ tr, trace (Project.stage (this, st)).2.2 = trace st ++ tr
                ∧ ∀ p, rm p ∈ tr → p = ".././.bao_tmp") as (tr & Htr & Hrm).
  { unfold Project.stage, try_catch. rewrite ?Project_loadFromManifest_calls.
    unfold bind, Project.get_this, Project.lift, Project.loadFromManifest,
      Project.update_this, throw, called.
    unfold_M.
    repeat (case_match; simplify_eq/=);
      rewrite <- ?app_assoc; simpl; eexists; (split; [reflexivity|]);
      intros p Hin; repeat (apply elem_of_cons in Hin as [Hin|Hin]; [by simplify_eq|]);
      by apply elem_of_nil in Hin. }
  exists tr. split_and!; [done|done|].
  intros Hin. by apply Hrm in Hin.
Qed.
End StageProperties.
